(** * DS1306 real-time clock driver: register codecs and bus transactions

    A shallow embedding of [ds1306.py] (class [DS1306]).  Python integers
    are unbounded, so every integer is a [Z]; [>>], [&] and [|] are
    [Z.shiftr], [Z.land] and [Z.lor], which agree with Python's
    two's-complement reading of negative masks such as [-0x21]. *)

From Stdlib Require Import ZArith List String Ascii Bool Lia.
Import ListNotations.
Open Scope Z_scope.

(** ** Python primitives used by the driver *)

Module Py.

(** Truth value of an integer in a condition ([if th:], [not a]). *)
Definition truthy (n : Z) : bool := negb (n =? 0).

(** [int(a / b)]: true division followed by truncation toward zero.  For
    [|a| < 2^53] and the divisors the driver uses (4, 10, 100, 400) the
    rounded float quotient lies on the same side of every integer as the
    exact one, so the result is the integer quotient rounded toward zero. *)
Definition int_div (a b : Z) : Z := Z.quot a b.

(** Subscription [l[i]] of a sequence: a negative index counts from the
    end, an index outside [-len, len) raises [IndexError] ([None]). *)
Definition index {A : Type} (l : list A) (i : Z) : option A :=
  let n := Z.of_nat (List.length l) in
  if (0 <=? i) && (i <? n) then nth_error l (Z.to_nat i)
  else if (- n <=? i) && (i <? 0) then nth_error l (Z.to_nat (n + i))
  else None.

(** A value fits a [bytearray] cell when it lies in [range(256)]. *)
Definition is_byte (v : Z) : bool := (0 <=? v) && (v <? 256).

(** [bytearray([...])]: [ValueError] ([None]) when a value is no byte. *)
Definition bytearray (l : list Z) : option (list Z) :=
  if forallb is_byte l then Some l else None.

Fixpoint bin_digits (p : positive) (acc : string) : string :=
  match p with
  | xH => String "1" acc
  | xO q => bin_digits q (String "0" acc)
  | xI q => bin_digits q (String "1" acc)
  end.

(** [bin(n)]: the binary literal of [n] as a string. *)
Definition bin (n : Z) : string :=
  match n with
  | Z0 => "0b0"%string
  | Zpos p => ("0b" ++ bin_digits p "")%string
  | Zneg p => ("-0b" ++ bin_digits p "")%string
  end.

End Py.

(** ** Register codecs (the methods of [DS1306] that touch no bus) *)

(** [bcdtodec]: [(((byte>>4)&0x07)*10)+(byte&0x0f)]. *)
Definition bcdtodec (byte : Z) : Z :=
  Z.land (Z.shiftr byte 4) 0x07 * 10 + Z.land byte 0x0f.

(** [dectobcd]: [un = int(num/10)], [ln = num - un*10], result [un*16+ln]. *)
Definition dectobcd (num : Z) : Z :=
  let un := Py.int_div num 10 in
  let ln := num - un * 10 in
  un * 16 + ln.

(** [getDayFromDate]: Sunday is 1, Saturday is 7.  [y -= m<3] subtracts the
    boolean as an integer; [t[m-1]] is a tuple subscription. *)
Definition getDayFromDate (y m d : Z) : option Z :=
  let t := [0; 3; 2; 5; 0; 3; 5; 1; 4; 6; 2; 4] in
  let y := y - (if m <? 3 then 1 else 0) in
  match Py.index t (m - 1) with
  | Some tm =>
      Some ((y + Py.int_div y 4 - Py.int_div y 100 + Py.int_div y 400 + tm + d)
              mod 7 + 1)
  | None => None
  end.

(** The weekday as the specification words it: the same congruence with
    floor division and the offset table read at position [m-1]. *)
Definition weekday_as_specified (y m d : Z) : Z :=
  let y' := if m <? 3 then y - 1 else y in
  let offset := nth (Z.to_nat (m - 1)) [0; 3; 2; 5; 0; 3; 5; 1; 4; 6; 2; 4] 0 in
  (y' + y' / 4 - y' / 100 + y' / 400 + offset + d) mod 7 + 1.

(** The hour byte computed by [setTime] before the frame is built
    (the [if th: ... else: ...] block). *)
Definition setTime_hour (h th ap : Z) : Z :=
  if Py.truthy th then
    let h := if h <=? 12 then h else h - 12 in
    let ap := ap mod 2 in
    Z.lor (Z.lor (dectobcd h) 0x40) (0x20 * ap)
  else dectobcd h.

(** The triple (hour, 12-hour flag, PM flag) [getTime] derives from the raw
    hour register. *)
Definition getTime_hour (h : Z) : Z * Z * Z :=
  if negb (Py.truthy (Z.land (Z.shiftr h 6) 1)) then (bcdtodec h, 0, 0)
  else (bcdtodec (Z.land (Z.land h (-0x21)) (-0x41)), 1, Z.land (Z.shiftr h 5) 1).

(** ** The bus, the chip-select line and the device behind them

    The driver owns a [busio.SPI] handle and a [DigitalInOut] pin, and the
    DS1306 sits behind them.  A [world] holds what the driver can observe or
    change: the device registers, the chip-select level, whether the bus is
    held, the frames written so far, and how many transfers still succeed
    before the bus reports a failure. *)

Inductive exn : Type := TransportFault | ValueError | IndexError | TypeError.

Record world : Type := mkWorld {
  regs : Z -> Z;          (* device registers, by read address *)
  wp_gate : bool;         (* the device ignores writes while write-protected *)
  idle : Z;               (* byte clocked in while the address byte goes out *)
  cs : bool;              (* level of the chip-select pin *)
  owned : bool;           (* [try_lock] succeeded and [unlock] has not run *)
  faults : option nat;    (* [Some k]: the transfer after [k] more fails *)
  sent : list (list Z)    (* frames passed to [spi.write], oldest first *)
}.

Definition set_cs (b : bool) (w : world) : world :=
  mkWorld (regs w) (wp_gate w) (idle w) b (owned w) (faults w) (sent w).

Definition set_owned (b : bool) (w : world) : world :=
  mkWorld (regs w) (wp_gate w) (idle w) (cs w) b (faults w) (sent w).

Definition set_faults (f : option nat) (w : world) : world :=
  mkWorld (regs w) (wp_gate w) (idle w) (cs w) (owned w) f (sent w).

(** How a call ends: it returns a value, it raises, or it never returns
    (the busy-wait of [__lock] on a bus that nobody will release). *)
Inductive outcome (A : Type) : Type :=
| Ret (a : A) (w : world)
| Raise (e : exn) (w : world)
| Spin (w : world).
Arguments Ret {A} a w.
Arguments Raise {A} e w.
Arguments Spin {A} w.

Definition M (A : Type) : Type := world -> outcome A.

Definition ret {A : Type} (a : A) : M A := fun w => Ret a w.

Definition raise {A : Type} (e : exn) : M A := fun w => Raise e w.

Definition bind {A B : Type} (m : M A) (k : A -> M B) : M B :=
  fun w =>
    match m w with
    | Ret a w' => k a w'
    | Raise e w' => Raise e w'
    | Spin w' => Spin w'
    end.

Notation "x <- m ;; k" := (bind m (fun x => k))
  (at level 61, m at next level, right associativity).
Notation "m ;; k" := (bind m (fun _ => k))
  (at level 61, right associativity).

(** The state in which a call ended, whatever the way. *)
Definition final {A : Type} (o : outcome A) : world :=
  match o with Ret _ w => w | Raise _ w => w | Spin w => w end.

(** *** The device

    The DS1306 itself is hardware, so its registers are modelled from the
    register table and the transaction rules of the specification:
    0x00-0x06 clock and calendar, 0x07-0x0E the two alarms, 0x0F control
    (write protect is bit 6), 0x10 status (read only), 0x11 trickle charger.
    A frame whose first byte has bit 7 set writes the bytes that follow to
    consecutive registers starting at that byte with bit 7 dropped.  With
    [wp_gate] the device rejects writes while the write-protect bit is set,
    the write-protect bit itself excepted (the Locked state of the
    specification); without it every write is stored, as by a bus double
    that only records. *)

(** Modelled from the spec: the device's handling of one byte written to
    register [r] (the hardware is not part of the source). *)
Definition store (gate : bool) (r v : Z) (rg : Z -> Z) : Z -> Z :=
  let protected := gate && Z.testbit (rg 0x0f) 6 in
  if r =? 0x0f then
    let v' := if protected
              then Z.lor (Z.land (rg 0x0f) (-0x41)) (Z.land v 0x40)
              else v in
    fun a => if a =? 0x0f then v' else rg a
  else if (r =? 0x10) || protected then rg
  else fun a => if a =? r then v else rg a.

(** Modelled from the spec: address auto-increment across the payload of a
    burst write. *)
Fixpoint burst (gate : bool) (r : Z) (data : list Z) (rg : Z -> Z) : Z -> Z :=
  match data with
  | [] => rg
  | v :: rest => burst gate (r + 1) rest (store gate r v rg)
  end.

(** Modelled from the spec: a frame is a write when its address byte has
    the write flag 0x80. *)
Definition dev_write (gate : bool) (buf : list Z) (rg : Z -> Z) : Z -> Z :=
  match buf with
  | [] => rg
  | a :: data => if Z.testbit a 7 then burst gate (Z.land a 0x7f) data rg else rg
  end.

(** Modelled from the spec: the burst read.  A read of [n] bytes sends
    zeros, so it starts at address 0: the first byte arrives while the
    address goes out (index 0 is unused), the rest are the registers in
    order. *)
Definition dev_read (n : nat) (w : world) : list Z :=
  firstn n (idle w :: map (fun k => regs w (Z.of_nat k)) (seq 0 (pred n))).

(** The effect of a frame that reached the device. *)
Definition put (buf : list Z) (w : world) : world :=
  mkWorld (dev_write (wp_gate w) buf (regs w)) (wp_gate w) (idle w) (cs w)
          (owned w) (faults w) (sent w ++ [buf]).

(** *** The collaborators' methods

    [busio.SPI] and [DigitalInOut] are libraries outside the source; their
    methods follow the bus and chip-select interfaces of the
    specification. *)

(** Modelled from the spec: [try_lock], the polling acquire of the bus. *)
Definition try_lock : M bool :=
  fun w => if owned w then Ret false w else Ret true (set_owned true w).

(** Modelled from the spec: [unlock], the release of the bus. *)
Definition spi_unlock : M unit := fun w => Ret tt (set_owned false w).

(** Modelled from the spec: [configure].  The call
    [spi.configure(baudrate=100000,polarity=0,phase=1)] changes nothing the
    driver observes. *)
Definition spi_configure : M unit := ret tt.

(** Modelled from the spec: assignment to the [value] of the chip-select
    pin. *)
Definition cs_value (b : bool) : M unit := fun w => Ret tt (set_cs b w).

(** The budget of [faults] after a transfer that went well. *)
Definition spend (w : world) : world :=
  set_faults (match faults w with Some (S k) => Some k | other => other end) w.

(** Modelled from the spec: one transfer on the wire.  It raises the
    transport fault when the budget of [faults] is used up, and then nothing
    reaches the device. *)
Definition transfer : M unit :=
  fun w =>
    match faults w with
    | Some O => Raise TransportFault (set_faults None w)
    | _ => Ret tt (spend w)
    end.

(** Modelled from the spec: [write] and [readinto] of the bus. *)
Definition spi_write (buf : list Z) : M unit :=
  transfer ;; fun w => Ret tt (put buf w).

Definition spi_readinto (n : nat) : M (list Z) :=
  transfer ;; fun w => Ret (dev_read n w) w.

(** ** The driver's transaction layer *)

(** The iterations of [while not self.__spi.try_lock(): pass]. *)
Fixpoint lock_loop (fuel : nat) (w : world) : option world :=
  match fuel with
  | O => None
  | S fuel' =>
      match try_lock w with
      | Ret true w' => Some w'
      | Ret false w' => lock_loop fuel' w'
      | _ => None
      end
  end.

(** [__lock]: nothing else runs while the loop polls, so it leaves at once
    on a free bus and never on a held one (see [lock_loop_free] and
    [lock_loop_held]). *)
Definition __lock : M unit :=
  fun w => if owned w then Spin w else Ret tt (set_owned true w).

Definition __unlock : M unit := spi_unlock.

Definition __configure : M unit := spi_configure.

Definition __prepare : M unit :=
  __lock ;; __configure ;; cs_value true.

Definition __finish : M unit :=
  cs_value false ;; __unlock.

(** What [__read] hands back: the whole buffer or one of its cells. *)
Inductive pyval : Type := PInt (n : Z) | PBytes (b : list Z).

(** An integer operator applied to a value: [TypeError] on a buffer. *)
Definition as_int (v : pyval) : M Z :=
  match v with
  | PInt n => ret n
  | PBytes _ => raise TypeError
  end.

Definition bytearray_of (l : list Z) : M (list Z) :=
  match Py.bytearray l with
  | Some b => ret b
  | None => raise ValueError
  end.

Definition __read (loc : Z) : M pyval :=
  __prepare ;;
  result <- spi_readinto 19 ;;
  __finish ;;
  if loc =? -1 then ret (PBytes result)
  else match Py.index result (loc + 1) with
       | Some b => ret (PInt b)
       | None => raise IndexError
       end.

Definition __writeOn : M unit :=
  prior <- __read 0x0f ;;
  __prepare ;;
  prior <- as_int prior ;;
  buf <- bytearray_of [0x8f; Z.land prior 0x04] ;;
  spi_write buf ;;
  __finish.

Definition __writeOff : M unit :=
  prior <- __read 0x0f ;;
  __prepare ;;
  prior <- as_int prior ;;
  buf <- bytearray_of [0x8f; Z.lor prior 0x40] ;;
  spi_write buf ;;
  __finish.

Definition __write (loc val : Z) : M unit :=
  __writeOn ;;
  __prepare ;;
  buf <- bytearray_of [loc; val] ;;
  spi_write buf ;;
  __finish ;;
  __writeOff.

Definition __writeBuf (buf : list Z) : M unit :=
  __writeOn ;;
  __prepare ;;
  spi_write buf ;;
  __finish ;;
  __writeOff.

(** ** The public operations *)

Definition setTime (h m s th ap : Z) : M unit :=
  let h := setTime_hour h th ap in
  buf <- bytearray_of [0x80; dectobcd s; dectobcd m; h] ;;
  __writeBuf buf.

Definition getTime : M (Z * Z * Z * Z * Z) :=
  h <- __read 0x02 ;;
  h <- as_int h ;;
  let h := getTime_hour h in
  m <- __read 0x01 ;;
  m <- as_int m ;;
  let m := bcdtodec m in
  s <- __read 0x00 ;;
  s <- as_int s ;;
  let s := bcdtodec s in
  ret (fst (fst h), m, s, snd (fst h), snd h).


Definition getDate : M (Z * Z * Z * Z) :=
  y <- __read 0x06 ;;
  y <- as_int y ;;
  let y := bcdtodec y in
  m <- __read 0x05 ;;
  m <- as_int m ;;
  let m := bcdtodec m in
  d <- __read 0x04 ;;
  d <- as_int d ;;
  let d := bcdtodec d in
  w <- __read 0x03 ;;
  w <- as_int w ;;
  let w := bcdtodec w in
  ret (y, m, d, w).

(** The frame [setAlarmTime] builds: address, then seconds, minutes, hours
    and weekday, each with its match flag as bit 7. *)
Definition setAlarmTime_frame (a h m s w fh fm fs fw th ap : Z) : list Z :=
  let add := if negb (Py.truthy a) then 0x87 else 0x8B in
  let h :=
    if Py.truthy th then
      let h := if h <=? 12 then h else h - 12 in
      let ap := ap mod 2 in
      Z.lor (Z.lor (Z.lor (dectobcd h) 0x40) (0x20 * ap)) (0x80 * fh)
    else Z.lor (dectobcd h) (0x80 * fh) in
  let s := Z.lor (dectobcd s) (0x80 * fs) in
  let m := Z.lor (dectobcd m) (0x80 * fm) in
  let w := Z.lor (dectobcd w) (0x80 * fw) in
  [add; s; m; h; w].

Definition setAlarmTime (a h m s w fh fm fs fw th ap : Z) : M unit :=
  buf <- bytearray_of (setAlarmTime_frame a h m s w fh fm fs fw th ap) ;;
  __writeBuf buf.

(** What [getAlarmTime] returns from the four raw alarm registers. *)
Definition getAlarmTime_result (h m s w : Z)
  : string * string * string * string * Z * Z * Z * Z :=
  (Py.bin (Z.land (Z.land h (-0x81)) (-0x41)),
   Py.bin (Z.land m (-0x81)),
   Py.bin (Z.land s (-0x81)),
   Py.bin (Z.land w (-0x81)),
   Z.land (Z.shiftr h 7) 1,
   Z.land (Z.shiftr m 7) 1,
   Z.land (Z.shiftr s 7) 1,
   Z.land (Z.shiftr w 7) 1).

Definition getAlarmTime (a : Z)
  : M (string * string * string * string * Z * Z * Z * Z) :=
  h <- __read (0x09 + 4 * a) ;;
  m <- __read (0x08 + 4 * a) ;;
  s <- __read (0x07 + 4 * a) ;;
  w <- __read (0x0a + 4 * a) ;;
  h <- as_int h ;;
  m <- as_int m ;;
  s <- as_int s ;;
  w <- as_int w ;;
  ret (getAlarmTime_result h m s w).

Definition enableAlarmInt (a : Z) : M unit :=
  let n := if negb (Py.truthy a) then 0x01 else 0x02 in
  c <- __read 0x0f ;;
  c <- as_int c ;;
  __write 0x8f (Z.lor c n).

Definition disableAlarmInt (a : Z) : M unit :=
  let n := if negb (Py.truthy a) then -0x02 else -0x03 in
  c <- __read 0x0f ;;
  c <- as_int c ;;
  __write 0x8f (Z.land c n).

(** [getAlarmStatus]: [self.__read(0x10)>>a&1]; a negative shift count
    raises [ValueError]. *)
Definition getAlarmStatus (a : Z) : M Z :=
  c <- __read 0x10 ;;
  c <- as_int c ;;
  if a <? 0 then raise ValueError
  else ret (Z.land (Z.shiftr c a) 1).

Definition setChargerState (d r : Z) : M unit :=
  d <- (if negb (Py.truthy d)
        then (c <- __read 0x11 ;; c <- as_int c ;;
              ret (Z.lor (Z.land c (-0x09)) 0x04))
        else (c <- __read 0x11 ;; c <- as_int c ;;
              ret (Z.lor (Z.land c (-0x05)) 0x08))) ;;
  __write 0x91 d ;;
  r <- (if negb (Py.truthy r)
        then (c <- __read 0x11 ;; c <- as_int c ;;
              ret (Z.lor (Z.land c (-0x03)) 0x01))
        else if r =? 1
        then (c <- __read 0x11 ;; c <- as_int c ;;
              ret (Z.lor (Z.land c (-0x02)) 0x02))
        else (c <- __read 0x11 ;; c <- as_int c ;;
              ret (Z.lor (Z.lor c 0x01) 0x02))) ;;
  __write 0x91 r.

Definition enableCharger : M unit :=
  c <- __read 0x11 ;;
  c <- as_int c ;;
  __write 0x91 (Z.lor (Z.lor (Z.land (Z.land c (-0x41)) (-0x11)) 0x80) 0x20).

Definition disableCharger : M unit :=
  c <- __read 0x11 ;;
  c <- as_int c ;;
  __write 0x91 (Z.lor (Z.lor (Z.land (Z.land c (-0x81)) (-0x21)) 0x40) 0x10).

Definition enableHzPin : M unit := __write 0x8f 0x04.

Definition disableHzPin : M unit := __write 0x8f 0x00.

(** ** Worlds the driver starts from *)

(** Every register and the idle byte are octets, the bus is free. *)
Record ready (w : world) : Prop := mkReady {
  ready_regs : forall a, 0 <= regs w a < 256;
  ready_idle : 0 <= idle w < 256;
  ready_free : owned w = false
}.

(** The chip-select line is low and the bus is free. *)
Definition released (w : world) : Prop := cs w = false /\ owned w = false.

(** A device out of reset with its registers cleared, with the given
    control register, on a free bus that does not fail. *)
Definition bench (gate : bool) (control : Z) : world :=
  mkWorld (fun a => if a =? 0x0f then control else 0) gate 0 false false None [].

(** The same bench on a bus whose transfer number [k] (from 0) fails. *)
Definition faulty_bench (gate : bool) (control : Z) (k : nat) : world :=
  set_faults (Some k) (bench gate control).

(** ** Worlds between transactions *)

(** The bus carries out the next [n] transfers. *)
Definition can_transfer (n : nat) (w : world) : Prop :=
  match faults w with
  | None => True
  | Some k => (n <= k)%nat
  end.

(** The world once [__finish] has run: chip-select low, bus free. *)
Definition at_rest (w : world) : world :=
  mkWorld (regs w) (wp_gate w) (idle w) false false (faults w) (sent w).

(** The world after a whole read transaction. *)
Definition after_read (w : world) : world := at_rest (spend w).

(** The world after a whole write transaction that carried [buf]. *)
Definition after_frame (buf : list Z) (w : world) : world :=
  at_rest (put buf (spend w)).

(** The frames [__writeOn] and [__writeOff] send from the control
    register they read. *)
Definition unlock_frame (w : world) : list Z := [0x8f; Z.land (regs w 0x0f) 0x04].

Definition lock_frame (w : world) : list Z := [0x8f; Z.lor (regs w 0x0f) 0x40].

(** The worlds after [__writeOn] and after [__writeOff]: a read, then the
    frame. *)
Definition unlocked_by (w : world) : world :=
  after_frame (unlock_frame w) (after_read w).

Definition locked_by (w : world) : world :=
  after_frame (lock_frame w) (after_read w).

(** A call that leaves the device registers and the frames sent as they
    were, however it ends. *)
Definition read_only {A : Type} (m : M A) : Prop :=
  forall w, regs (final (m w)) = regs w /\ sent (final (m w)) = sent w.

(** The control register a write operation leaves behind when its data
    frame does not reach the control register: untouched on a device that
    gates writes and was Locked, bit 2 and write protect otherwise. *)
Definition control_after_write (gate : bool) (c : Z) : Z :=
  if gate && Z.testbit c 6 then c else Z.lor (Z.land c 0x04) 0x40.

(** The register a burst of [data] starting at [r] leaves at address [a]. *)
Definition burst_value (r : Z) (data : list Z) (old : Z -> Z) (a : Z) : Z :=
  if (r <=? a) && (a <? r + Z.of_nat (List.length data))
  then nth (Z.to_nat (a - r)) data 0
  else old a.

(** Equality test on the triples [getTime_hour] returns. *)
Definition triple_eqb (x y : Z * Z * Z) : bool :=
  let '(a, b, c) := x in
  let '(a', b', c') := y in
  (a =? a') && (b =? b') && (c =? c').

(** * Properties *)

(** ** Finite ranges *)

(** A boolean property checked on every integer of [lo, lo+n) holds on
    each of them. *)
Lemma forall_range (P : Z -> bool) (lo : Z) (n : nat) :
  forallb P (map (fun k => lo + Z.of_nat k) (seq 0 n)) = true ->
  forall x, lo <= x < lo + Z.of_nat n -> P x = true.
Proof.
  intros Hall x Hx.
  rewrite forallb_forall in Hall. apply Hall.
  apply in_map_iff. exists (Z.to_nat (x - lo)). split.
  - rewrite Z2Nat.id by lia. lia.
  - apply in_seq. lia.
Qed.

Lemma forall_bytes (P : Z -> bool) :
  forallb P (map (fun k => 0 + Z.of_nat k) (seq 0 256)) = true ->
  forall c, 0 <= c < 256 -> P c = true.
Proof.
  intros Hall c Hc. apply (forall_range P 0 256 Hall). lia.
Qed.

Lemma is_byte_true v : Py.is_byte v = true <-> 0 <= v < 256.
Proof. unfold Py.is_byte. rewrite andb_true_iff, Z.leb_le, Z.ltb_lt. tauto. Qed.

(** ** BCD codec *)

Section Bcd.

Lemma dectobcd_digits n :
  0 <= n -> dectobcd n = 16 * (n / 10) + n mod 10.
Proof.
  intros Hn. unfold dectobcd, Py.int_div.
  rewrite Z.quot_div_nonneg by lia.
  pose proof (Z.div_mod n 10). lia.
Qed.

Lemma bcdtodec_digits q r :
  0 <= q < 8 -> 0 <= r < 16 -> bcdtodec (16 * q + r) = q * 10 + r.
Proof.
  intros Hq Hr. unfold bcdtodec.
  rewrite Z.shiftr_div_pow2 by lia.
  change (2 ^ 4) with 16.
  change 0x07 with (Z.ones 3). change 0x0f with (Z.ones 4).
  rewrite !Z.land_ones by lia.
  change (2 ^ 3) with 8. change (2 ^ 4) with 16.
  replace ((16 * q + r) / 16) with q
    by (apply Z.div_unique with r; lia).
  replace ((16 * q + r) mod 16) with r
    by (apply Z.mod_unique with q; lia).
  rewrite Z.mod_small by lia. reflexivity.
Qed.


(** The code of a number below 80 is a byte with both nibbles decimal, and
    encoding what [bcdtodec] reads in such a byte gives the byte back. *)
Lemma dectobcd_bcdtodec q r :
  0 <= q < 8 -> 0 <= r < 10 -> dectobcd (bcdtodec (16 * q + r)) = 16 * q + r.
Proof.
  intros Hq Hr. rewrite bcdtodec_digits by lia.
  rewrite dectobcd_digits by lia.
  replace ((q * 10 + r) / 10) with q
    by (apply Z.div_unique with r; lia).
  replace ((q * 10 + r) mod 10) with r
    by (apply Z.mod_unique with q; lia).
  reflexivity.
Qed.

Lemma bcdtodec_dectobcd_low n :
  0 <= n <= 79 -> bcdtodec (dectobcd n) = n.
Proof.
  intros Hn. rewrite dectobcd_digits by lia.
  assert (0 <= n / 10 < 8)
    by (split; [apply Z.div_pos; lia | apply Z.div_lt_upper_bound; lia]).
  pose proof (Z.mod_pos_bound n 10 ltac:(lia)).
  rewrite bcdtodec_digits by lia.
  pose proof (Z.div_mod n 10). lia.
Qed.

(** C1, as the code has it: for every integer n in [0,79], decoding the BCD
    encoding of n returns n, [bcdtodec (dectobcd n) = n]; on the codes of
    these numbers the two functions are inverse of each other. *)
Theorem bcd_roundtrip_below_80 n :
  0 <= n <= 79 ->
  bcdtodec (dectobcd n) = n /\
  dectobcd (bcdtodec (dectobcd n)) = dectobcd n.
Proof.
  intros Hn. rewrite (bcdtodec_dectobcd_low n Hn). split; reflexivity.
Qed.

Lemma bcd_roundtrip_below_80_witness :
  0 <= 59 <= 79 /\ bcdtodec (dectobcd 59) = 59.
Proof.
  split; [lia |].
  destruct (bcd_roundtrip_below_80 59 ltac:(lia)) as [E _]. exact E.
Defined.

(** C1, as stated, fails: 80 lies in [0,99] and is encoded as 0x80, whose
    high nibble is masked to 0 by [bcdtodec]. *)
Lemma bcd_roundtrip_fails_at_80 :
  dectobcd 80 = 0x80 /\ bcdtodec (dectobcd 80) = 0 /\
  ~ (forall n, 0 <= n <= 99 -> bcdtodec (dectobcd n) = n).
Proof.
  split; [reflexivity | split; [reflexivity |]].
  intros H. specialize (H 80 ltac:(lia)). vm_compute in H. discriminate H.
Qed.

End Bcd.

(** ** Day of the week *)

Section Weekday.

Lemma month_cases m :
  1 <= m <= 12 ->
  m = 1 \/ m = 2 \/ m = 3 \/ m = 4 \/ m = 5 \/ m = 6 \/
  m = 7 \/ m = 8 \/ m = 9 \/ m = 10 \/ m = 11 \/ m = 12.
Proof. lia. Qed.

Lemma getDayFromDate_formula y m d :
  1 <= y < 2 ^ 53 -> 1 <= m <= 12 ->
  getDayFromDate y m d = Some (weekday_as_specified y m d).
Proof.
  intros Hy Hm. unfold getDayFromDate, weekday_as_specified, Py.int_div.
  destruct (month_cases m Hm) as [E|[E|[E|[E|[E|[E|[E|[E|[E|[E|[E|E]]]]]]]]]]];
    subst m;
    repeat match goal with
      | |- context [Py.index ?t ?i] =>
          let v := eval vm_compute in (Py.index t i) in
          change (Py.index t i) with v
      | |- context [nth ?i ?t 0] =>
          let v := eval vm_compute in (nth i t 0) in
          change (nth i t 0) with v
      | |- context [?a <? 3] =>
          let v := eval vm_compute in (a <? 3) in
          change (a <? 3) with v
      end;
    cbv beta iota zeta; rewrite ?Z.sub_0_r;
    rewrite !Z.quot_div_nonneg by lia; reflexivity.
Qed.

Lemma weekday_as_specified_range y m d :
  1 <= weekday_as_specified y m d <= 7.
Proof.
  unfold weekday_as_specified.
  match goal with |- _ <= ?a mod 7 + 1 <= _ =>
    pose proof (Z.mod_pos_bound a 7 ltac:(lia)) end.
  lia.
Qed.

(** C4: [getDayFromDate y m d] is the weekday 1-7 (Sunday 1) obtained by
    taking one off [y] when [m < 3], adding the offset found at position
    [m-1] of (0,3,2,5,0,3,5,1,4,6,2,4) and evaluating
    ((y + y/4 - y/100 + y/400 + offset + d) mod 7) + 1 with floor division;
    [getDayFromDate 2024 1 1] is 2 and [getDayFromDate 2000 1 1] is 7. *)
Theorem getDayFromDate_as_specified :
  (forall y m d, 1 <= y < 2 ^ 53 -> 1 <= m <= 12 ->
     getDayFromDate y m d = Some (weekday_as_specified y m d) /\
     1 <= weekday_as_specified y m d <= 7) /\
  getDayFromDate 2024 1 1 = Some 2 /\
  getDayFromDate 2000 1 1 = Some 7.
Proof.
  split; [| split; reflexivity].
  intros y m d Hy Hm. split.
  - apply getDayFromDate_formula; assumption.
  - apply weekday_as_specified_range.
Qed.

Lemma getDayFromDate_as_specified_witness :
  1 <= 2024 < 2 ^ 53 /\ 1 <= 2 <= 12 /\ getDayFromDate 2024 2 29 = Some 5.
Proof.
  split; [lia | split; [lia |]].
  destruct getDayFromDate_as_specified as [H _].
  destruct (H 2024 2 29 ltac:(lia) ltac:(lia)) as [E _].
  rewrite E. reflexivity.
Defined.

End Weekday.

(** ** Hour packing *)

Section Hours.

Lemma setTime_hour_truthy h th ap :
  th <> 0 -> setTime_hour h th ap = setTime_hour h 1 ap.
Proof.
  intros Hth. unfold setTime_hour, Py.truthy.
  destruct (Z.eqb_spec th 0) as [E|E]; [contradiction | reflexivity].
Qed.

Lemma triple_eqb_eq x y : triple_eqb x y = true -> x = y.
Proof.
  destruct x as [[a b] c], y as [[a' b'] c']. unfold triple_eqb.
  rewrite !andb_true_iff, !Z.eqb_eq. intros [[-> ->] ->]. reflexivity.
Qed.

Lemma hour12_roundtrip h ap :
  1 <= h <= 12 -> 0 <= ap <= 1 ->
  getTime_hour (setTime_hour h 1 ap) = (h, 1, ap).
Proof.
  intros Hh Hap. apply triple_eqb_eq.
  assert (E : ap = 0 \/ ap = 1) by lia.
  destruct E as [-> | ->].
  - apply (forall_range
             (fun k => triple_eqb (getTime_hour (setTime_hour k 1 0)) (k, 1, 0))
             1 12); [vm_compute; reflexivity | lia].
  - apply (forall_range
             (fun k => triple_eqb (getTime_hour (setTime_hour k 1 1)) (k, 1, 1))
             1 12); [vm_compute; reflexivity | lia].
Qed.

Lemma hour24_roundtrip h ap :
  0 <= h <= 23 -> getTime_hour (setTime_hour h 0 ap) = (h, 0, 0).
Proof.
  intros Hh. apply triple_eqb_eq.
  change (setTime_hour h 0 ap) with (dectobcd h).
  apply (forall_range
           (fun k => triple_eqb (getTime_hour (dectobcd k)) (k, 0, 0)) 0 24);
    [vm_compute; reflexivity | lia].
Qed.

(** C5: for every hour 1-12 and each AM/PM value, the hour byte [setTime]
    packs in 12-hour mode is decoded by [getTime] to the same hour, mode
    flag 1 and the same AM/PM value; for every hour 0-23 packed in 24-hour
    mode the decoding gives the same hour and mode flag 0. *)
Theorem hour_roundtrip :
  (forall h th ap, 1 <= h <= 12 -> th <> 0 -> 0 <= ap <= 1 ->
     getTime_hour (setTime_hour h th ap) = (h, 1, ap)) /\
  (forall h ap, 0 <= h <= 23 ->
     getTime_hour (setTime_hour h 0 ap) = (h, 0, 0)).
Proof.
  split.
  - intros h th ap Hh Hth Hap. rewrite (setTime_hour_truthy h th ap Hth).
    apply hour12_roundtrip; assumption.
  - intros h ap Hh. apply hour24_roundtrip; assumption.
Qed.

Lemma hour_roundtrip_witness :
  getTime_hour (setTime_hour 11 1 1) = (11, 1, 1) /\
  getTime_hour (setTime_hour 23 0 0) = (23, 0, 0).
Proof.
  destruct hour_roundtrip as [H12 H24]. split.
  - apply (H12 11 1 1); lia.
  - apply (H24 23 0); lia.
Defined.

End Hours.

(** ** The transaction layer on a bus that does not fail *)

Section Transactions.

Lemma lock_loop_free w fuel :
  owned w = false -> lock_loop (S fuel) w = Some (set_owned true w).
Proof. intros H. simpl. unfold try_lock. rewrite H. reflexivity. Qed.

Lemma lock_loop_held w fuel :
  owned w = true -> lock_loop fuel w = None.
Proof.
  intros H. induction fuel as [|fuel IH]; simpl; [reflexivity |].
  unfold try_lock. rewrite H. exact IH.
Qed.

(** [__lock] returns exactly when some number of iterations ends the loop. *)
Lemma lock_returns_iff w w' :
  __lock w = Ret tt w' <-> exists fuel, lock_loop fuel w = Some w'.
Proof.
  unfold __lock. destruct (owned w) eqn:E; split.
  - discriminate.
  - intros [fuel H]. rewrite (lock_loop_held w fuel E) in H. discriminate.
  - intros H. injection H as <-. exists 1%nat. apply lock_loop_free, E.
  - intros [[|fuel] H]; [discriminate |].
    rewrite (lock_loop_free w fuel E) in H. injection H as <-. reflexivity.
Qed.

Lemma bind_Ret {A B : Type} (m : M A) (k : A -> M B) w a w' :
  m w = Ret a w' -> bind m k w = k a w'.
Proof. intros H. unfold bind. rewrite H. reflexivity. Qed.

Lemma bind_Raise {A B : Type} (m : M A) (k : A -> M B) w e w' :
  m w = Raise e w' -> bind m k w = Raise e w'.
Proof. intros H. unfold bind. rewrite H. reflexivity. Qed.

Lemma prepare_free w :
  owned w = false -> __prepare w = Ret tt (set_cs true (set_owned true w)).
Proof.
  intros H. unfold __prepare, __lock, __configure, spi_configure, cs_value,
    bind, ret. rewrite H. reflexivity.
Qed.

Lemma prepare_held w : owned w = true -> __prepare w = Spin w.
Proof. intros H. unfold __prepare, __lock, bind. rewrite H. reflexivity. Qed.

Lemma dev_read_index w loc :
  0 <= loc <= 17 -> Py.index (dev_read 19 w) (loc + 1) = Some (regs w loc).
Proof.
  intros H.
  assert (E : loc = 0 \/ loc = 1 \/ loc = 2 \/ loc = 3 \/ loc = 4 \/ loc = 5 \/
              loc = 6 \/ loc = 7 \/ loc = 8 \/ loc = 9 \/ loc = 10 \/
              loc = 11 \/ loc = 12 \/ loc = 13 \/ loc = 14 \/ loc = 15 \/
              loc = 16 \/ loc = 17) by lia.
  repeat (destruct E as [E | E]; [subst loc; reflexivity |]).
  subst loc; reflexivity.
Qed.

Lemma transfer_ok n w :
  can_transfer (S n) w -> transfer w = Ret tt (spend w).
Proof.
  unfold can_transfer, transfer. destruct (faults w) as [[|k]|]; try reflexivity.
  lia.
Qed.

Lemma spend_can_transfer n w :
  can_transfer (S n) w -> can_transfer n (spend w).
Proof.
  unfold can_transfer, spend. cbn [faults set_faults].
  destruct (faults w) as [[|k]|]; intros H; first [lia | exact I].
Qed.

Lemma can_transfer_le n m w :
  (m <= n)%nat -> can_transfer n w -> can_transfer m w.
Proof. unfold can_transfer. destruct (faults w); [lia | trivial]. Qed.

(** A read of one register on a free bus: its value, and the bus at rest. *)
Lemma read_reg w loc :
  owned w = false -> can_transfer 1 w -> 0 <= loc <= 17 ->
  __read loc w = Ret (PInt (regs w loc)) (after_read w).
Proof.
  intros Hfree Hok Hloc. unfold __read.
  rewrite (bind_Ret _ _ _ _ _ (prepare_free w Hfree)).
  unfold spi_readinto, bind at 1 2.
  rewrite (transfer_ok 0 (set_cs true (set_owned true w)) Hok).
  unfold bind at 1. cbn [__finish cs_value __unlock spi_unlock bind].
  destruct (Z.eqb_spec loc (-1)) as [E | _]; [lia |].
  change (dev_read 19 (spend (set_cs true (set_owned true w))))
    with (dev_read 19 w).
  rewrite (dev_read_index w loc Hloc). reflexivity.
Qed.

(** The first transfer fails: the fault leaves [__read] while the
    chip-select line is high and the bus is held. *)
Lemma read_fault w loc :
  owned w = false -> faults w = Some O ->
  __read loc w =
    Raise TransportFault (set_faults None (set_cs true (set_owned true w))).
Proof.
  intros Hfree Hko. unfold __read.
  rewrite (bind_Ret _ _ _ _ _ (prepare_free w Hfree)).
  unfold spi_readinto, transfer, bind. cbn [faults set_cs set_owned].
  rewrite Hko. reflexivity.
Qed.

Lemma send_frame w buf :
  owned w = false -> can_transfer 1 w ->
  (spi_write buf ;; __finish) (set_cs true (set_owned true w)) =
    Ret tt (after_frame buf w).
Proof.
  intros Hfree Hok. unfold spi_write, bind at 1 2.
  rewrite (transfer_ok 0 (set_cs true (set_owned true w)) Hok). reflexivity.
Qed.

Lemma land4_byte c : 0 <= c < 256 -> Py.is_byte (Z.land c 0x04) = true.
Proof.
  apply (forall_bytes (fun k => Py.is_byte (Z.land k 0x04))).
  vm_compute. reflexivity.
Qed.

Lemma lor64_byte c : 0 <= c < 256 -> Py.is_byte (Z.lor c 0x40) = true.
Proof.
  apply (forall_bytes (fun k => Py.is_byte (Z.lor k 0x40))).
  vm_compute. reflexivity.
Qed.

Lemma bytearray_of_bytes l w :
  forallb Py.is_byte l = true -> bytearray_of l w = Ret l w.
Proof.
  intros H. unfold bytearray_of, Py.bytearray. rewrite H. reflexivity.
Qed.

(** [__writeOn] on a free bus: one read, then the frame [0x8f, prior&0x04]. *)
Lemma writeOn_ok w :
  owned w = false -> can_transfer 2 w -> 0 <= regs w 0x0f < 256 ->
  __writeOn w = Ret tt (unlocked_by w).
Proof.
  intros Hfree Hok Hc. unfold __writeOn.
  rewrite (bind_Ret _ _ _ _ _
             (read_reg w 0x0f Hfree (can_transfer_le 2 1 w ltac:(lia) Hok)
                ltac:(lia))).
  rewrite (bind_Ret _ _ _ _ _ (prepare_free (after_read w) eq_refl)).
  unfold as_int, ret, bind at 1.
  erewrite bind_Ret
    by (apply bytearray_of_bytes; cbn [forallb]; rewrite (land4_byte _ Hc);
        reflexivity).
  apply (send_frame (after_read w)); [reflexivity |].
  apply (spend_can_transfer 1 w Hok).
Qed.

(** [__writeOff] on a free bus: one read, then the frame [0x8f, prior|0x40]. *)
Lemma writeOff_ok w :
  owned w = false -> can_transfer 2 w -> 0 <= regs w 0x0f < 256 ->
  __writeOff w = Ret tt (locked_by w).
Proof.
  intros Hfree Hok Hc. unfold __writeOff.
  rewrite (bind_Ret _ _ _ _ _
             (read_reg w 0x0f Hfree (can_transfer_le 2 1 w ltac:(lia) Hok)
                ltac:(lia))).
  rewrite (bind_Ret _ _ _ _ _ (prepare_free (after_read w) eq_refl)).
  unfold as_int, ret, bind at 1.
  erewrite bind_Ret
    by (apply bytearray_of_bytes; cbn [forallb]; rewrite (lor64_byte _ Hc);
        reflexivity).
  apply (send_frame (after_read w)); [reflexivity |].
  apply (spend_can_transfer 1 w Hok).
Qed.

(** *** The device keeps octets *)

Lemma gated_control_byte c v :
  0 <= c < 256 -> 0 <= v < 256 ->
  0 <= Z.lor (Z.land c (-0x41)) (Z.land v 0x40) < 256.
Proof.
  intros Hc Hv. apply is_byte_true.
  assert (E : Z.land v 0x40 = 0 \/ Z.land v 0x40 = 0x40).
  { assert (H : ((Z.land v 0x40 =? 0) || (Z.land v 0x40 =? 0x40)) = true).
    { revert v Hv.
      apply (forall_bytes
               (fun k => (Z.land k 0x40 =? 0) || (Z.land k 0x40 =? 0x40))).
      vm_compute. reflexivity. }
    apply orb_true_iff in H. rewrite !Z.eqb_eq in H. exact H. }
  destruct E as [-> | ->]; revert c Hc.
  - apply (forall_bytes (fun k => Py.is_byte (Z.lor (Z.land k (-0x41)) 0))).
    vm_compute. reflexivity.
  - apply (forall_bytes (fun k => Py.is_byte (Z.lor (Z.land k (-0x41)) 0x40))).
    vm_compute. reflexivity.
Qed.

Lemma store_bytes gate r v rg :
  (forall a, 0 <= rg a < 256) -> 0 <= v < 256 ->
  forall a, 0 <= store gate r v rg a < 256.
Proof.
  intros Hrg Hv a. unfold store.
  destruct (r =? 0x0f).
  - destruct (a =? 0x0f); [| apply Hrg].
    destruct (gate && Z.testbit (rg 0x0f) 6); [| exact Hv].
    apply gated_control_byte; [apply Hrg | exact Hv].
  - destruct ((r =? 0x10) || (gate && Z.testbit (rg 0x0f) 6)); [apply Hrg |].
    destruct (a =? r); [exact Hv | apply Hrg].
Qed.

Lemma burst_bytes gate data :
  forallb Py.is_byte data = true ->
  forall r rg, (forall a, 0 <= rg a < 256) ->
  forall a, 0 <= burst gate r data rg a < 256.
Proof.
  induction data as [| v rest IH]; intros Hd r rg Hrg; cbn [burst].
  - exact Hrg.
  - cbn [forallb] in Hd. apply andb_true_iff in Hd. destruct Hd as [Hv Hrest].
    apply IH; [exact Hrest |].
    apply store_bytes; [exact Hrg | apply is_byte_true, Hv].
Qed.

Lemma dev_write_bytes gate buf rg :
  forallb Py.is_byte buf = true -> (forall a, 0 <= rg a < 256) ->
  forall a, 0 <= dev_write gate buf rg a < 256.
Proof.
  intros Hb Hrg. destruct buf as [| a0 data]; cbn [dev_write]; [exact Hrg |].
  destruct (Z.testbit a0 7); [| exact Hrg].
  cbn [forallb] in Hb. apply andb_true_iff in Hb.
  apply burst_bytes; [apply Hb | exact Hrg].
Qed.

Lemma after_frame_ready buf w :
  forallb Py.is_byte buf = true -> ready w -> ready (after_frame buf w).
Proof.
  intros Hb [Hrg Hidle _]. constructor; cbn.
  - apply dev_write_bytes; assumption.
  - exact Hidle.
  - reflexivity.
Qed.

Lemma after_read_ready w : ready w -> ready (after_read w).
Proof. intros [Hrg Hidle _]. constructor; [exact Hrg | exact Hidle | reflexivity]. Qed.

Lemma unlocked_by_ready w : ready w -> ready (unlocked_by w).
Proof.
  intros H. apply after_frame_ready; [| apply after_read_ready, H].
  unfold unlock_frame. cbn [forallb].
  rewrite (land4_byte _ (ready_regs w H 0x0f)). reflexivity.
Qed.

Lemma locked_by_ready w : ready w -> ready (locked_by w).
Proof.
  intros H. apply after_frame_ready; [| apply after_read_ready, H].
  unfold lock_frame. cbn [forallb].
  rewrite (lor64_byte _ (ready_regs w H 0x0f)). reflexivity.
Qed.

Lemma after_frame_can_transfer n buf w :
  can_transfer (S n) w -> can_transfer n (after_frame buf w).
Proof. intros H. exact (spend_can_transfer n w H). Qed.

Lemma unlocked_by_can_transfer n w :
  can_transfer (S (S n)) w -> can_transfer n (unlocked_by w).
Proof.
  intros H. apply after_frame_can_transfer.
  exact (spend_can_transfer (S n) w H).
Qed.

(** [__write] and [__writeBuf] on a free bus: unlock, the frame, lock. *)
Lemma write_ok w loc val :
  ready w -> can_transfer 5 w -> 0 <= loc < 256 -> 0 <= val < 256 ->
  __write loc val w =
    Ret tt (locked_by (after_frame [loc; val] (unlocked_by w))).
Proof.
  intros Hw Hok Hloc Hval. unfold __write.
  assert (Hb : forallb Py.is_byte [loc; val] = true).
  { cbn [forallb]. apply is_byte_true in Hloc, Hval.
    rewrite Hloc, Hval. reflexivity. }
  rewrite (bind_Ret _ _ _ _ _
             (writeOn_ok w (ready_free w Hw)
                (can_transfer_le 5 2 w ltac:(lia) Hok) (ready_regs w Hw 0x0f))).
  rewrite (bind_Ret _ _ _ _ _ (prepare_free (unlocked_by w) eq_refl)).
  rewrite (bind_Ret _ _ _ _ _ (bytearray_of_bytes _ _ Hb)).
  pose proof (unlocked_by_ready w Hw) as H1.
  pose proof (after_frame_ready _ _ Hb H1) as H2.
  pose proof (unlocked_by_can_transfer 3 w Hok) as Hok1.
  unfold spi_write, bind at 1 2.
  rewrite (transfer_ok 2 (set_cs true (set_owned true (unlocked_by w))) Hok1).
  cbn [__finish cs_value __unlock spi_unlock bind].
  change (__writeOff (after_frame [loc; val] (unlocked_by w)) =
          Ret tt (locked_by (after_frame [loc; val] (unlocked_by w)))).
  apply writeOff_ok; [reflexivity | | apply (ready_regs _ H2)].
  apply after_frame_can_transfer. exact Hok1.
Qed.

Lemma writeBuf_ok w buf :
  ready w -> can_transfer 5 w -> forallb Py.is_byte buf = true ->
  __writeBuf buf w = Ret tt (locked_by (after_frame buf (unlocked_by w))).
Proof.
  intros Hw Hok Hb. unfold __writeBuf.
  rewrite (bind_Ret _ _ _ _ _
             (writeOn_ok w (ready_free w Hw)
                (can_transfer_le 5 2 w ltac:(lia) Hok) (ready_regs w Hw 0x0f))).
  rewrite (bind_Ret _ _ _ _ _ (prepare_free (unlocked_by w) eq_refl)).
  pose proof (unlocked_by_ready w Hw) as H1.
  pose proof (after_frame_ready _ _ Hb H1) as H2.
  pose proof (unlocked_by_can_transfer 3 w Hok) as Hok1.
  unfold spi_write, bind at 1 2.
  rewrite (transfer_ok 2 (set_cs true (set_owned true (unlocked_by w))) Hok1).
  cbn [__finish cs_value __unlock spi_unlock bind].
  change (__writeOff (after_frame buf (unlocked_by w)) =
          Ret tt (locked_by (after_frame buf (unlocked_by w)))).
  apply writeOff_ok; [reflexivity | | apply (ready_regs _ H2)].
  apply after_frame_can_transfer. exact Hok1.
Qed.

Lemma read_all w :
  owned w = false -> can_transfer 1 w ->
  __read (-1) w = Ret (PBytes (dev_read 19 w)) (after_read w).
Proof.
  intros Hfree Hok. unfold __read.
  rewrite (bind_Ret _ _ _ _ _ (prepare_free w Hfree)).
  unfold spi_readinto, bind at 1 2.
  rewrite (transfer_ok 0 (set_cs true (set_owned true w)) Hok). reflexivity.
Qed.

Lemma spi_write_fault buf w :
  faults w = Some O -> spi_write buf w = Raise TransportFault (set_faults None w).
Proof. intros H. unfold spi_write, transfer, bind. rewrite H. reflexivity. Qed.

Lemma bench_ready gate c : 0 <= c < 256 -> ready (bench gate c).
Proof.
  intros Hc. constructor; cbn; [| lia | reflexivity].
  intros a. destruct (a =? 15); lia.
Qed.

End Transactions.

(** ** The control register across a write *)

Section Control.

Lemma control_after_frame gate v rg :
  dev_write gate [0x8f; v] rg 0x0f =
    if gate && Z.testbit (rg 0x0f) 6
    then Z.lor (Z.land (rg 0x0f) (-0x41)) (Z.land v 0x40)
    else v.
Proof. reflexivity. Qed.

Lemma control_frame_elsewhere gate v rg a :
  a <> 0x0f -> dev_write gate [0x8f; v] rg a = rg a.
Proof.
  intros Ha. cbn. destruct (Z.eqb_spec a 15) as [E | _]; [contradiction |].
  reflexivity.
Qed.

Lemma control_written_unlocked gate v rg :
  Z.testbit (rg 0x0f) 6 = false -> dev_write gate [0x8f; v] rg 0x0f = v.
Proof.
  intros H. rewrite control_after_frame, H, andb_false_r. reflexivity.
Qed.

Lemma unlocked_control w :
  ready w -> Z.testbit (regs (unlocked_by w) 0x0f) 6 = false.
Proof.
  intros Hw. pose proof (ready_regs w Hw 0x0f) as Hc.
  change (regs (unlocked_by w) 0x0f)
    with (dev_write (wp_gate w) [0x8f; Z.land (regs w 0x0f) 0x04] (regs w) 0x0f).
  rewrite control_after_frame.
  destruct (wp_gate w && Z.testbit (regs w 0x0f) 6).
  - apply negb_true_iff. revert Hc.
    apply (forall_bytes
             (fun k => negb (Z.testbit
                (Z.lor (Z.land k (-0x41)) (Z.land (Z.land k 0x04) 0x40)) 6))).
    vm_compute. reflexivity.
  - rewrite Z.land_spec. apply andb_false_r.
Qed.

Lemma locked_control w :
  ready w -> Z.testbit (regs (locked_by w) 0x0f) 6 = true.
Proof.
  intros Hw. pose proof (ready_regs w Hw 0x0f) as Hc.
  change (regs (locked_by w) 0x0f)
    with (dev_write (wp_gate w) [0x8f; Z.lor (regs w 0x0f) 0x40] (regs w) 0x0f).
  rewrite control_after_frame.
  destruct (wp_gate w && Z.testbit (regs w 0x0f) 6).
  - revert Hc.
    apply (forall_bytes
             (fun k => Z.testbit
                (Z.lor (Z.land k (-0x41)) (Z.land (Z.lor k 0x40) 0x40)) 6)).
    vm_compute. reflexivity.
  - rewrite Z.lor_spec. apply orb_true_r.
Qed.

(** The frames of a whole write operation, in the order they left. *)
Lemma write_operation_sent buf w :
  sent (locked_by (after_frame buf (unlocked_by w))) =
    sent w ++ [unlock_frame w; buf;
               lock_frame (after_frame buf (unlocked_by w))].
Proof.
  cbn [locked_by after_frame after_read at_rest put spend set_faults sent
       unlocked_by].
  rewrite <- !app_assoc. reflexivity.
Qed.

End Control.

(** ** Write protection around a write *)

Section WriteProtect.

Lemma write_data_fault w loc val :
  ready w -> faults w = Some 2%nat -> 0 <= loc < 256 -> 0 <= val < 256 ->
  exists w', __write loc val w = Raise TransportFault w' /\
             Z.testbit (regs w' 0x0f) 6 = false.
Proof.
  intros Hw Hko Hloc Hval.
  assert (Hok : can_transfer 2 w) by (unfold can_transfer; rewrite Hko; lia).
  assert (Hb : forallb Py.is_byte [loc; val] = true).
  { cbn [forallb]. apply is_byte_true in Hloc, Hval.
    rewrite Hloc, Hval. reflexivity. }
  assert (Hf : faults (set_cs true (set_owned true (unlocked_by w))) = Some O).
  { cbn. rewrite Hko. reflexivity. }
  eexists. split.
  - unfold __write.
    rewrite (bind_Ret _ _ _ _ _
               (writeOn_ok w (ready_free w Hw) Hok (ready_regs w Hw 0x0f))).
    rewrite (bind_Ret _ _ _ _ _ (prepare_free (unlocked_by w) eq_refl)).
    rewrite (bind_Ret _ _ _ _ _ (bytearray_of_bytes _ _ Hb)).
    apply bind_Raise. apply spi_write_fault. exact Hf.
  - exact (unlocked_control w Hw).
Qed.

Lemma writeBuf_data_fault w buf :
  ready w -> faults w = Some 2%nat ->
  exists w', __writeBuf buf w = Raise TransportFault w' /\
             Z.testbit (regs w' 0x0f) 6 = false.
Proof.
  intros Hw Hko.
  assert (Hok : can_transfer 2 w) by (unfold can_transfer; rewrite Hko; lia).
  assert (Hf : faults (set_cs true (set_owned true (unlocked_by w))) = Some O).
  { cbn. rewrite Hko. reflexivity. }
  eexists. split.
  - unfold __writeBuf.
    rewrite (bind_Ret _ _ _ _ _
               (writeOn_ok w (ready_free w Hw) Hok (ready_regs w Hw 0x0f))).
    rewrite (bind_Ret _ _ _ _ _ (prepare_free (unlocked_by w) eq_refl)).
    apply bind_Raise. apply spi_write_fault. exact Hf.
  - exact (unlocked_control w Hw).
Qed.

(** C2, as the code has it: after a write operation ([__write] or
    [__writeBuf]) whose five bus transfers all succeed, bit 6 of the control
    register is set.  Nothing restores it on a fault: when the transfer of
    the data frame fails, the fault reaches the caller with bit 6 clear. *)
Theorem write_restores_protect w :
  ready w ->
  (can_transfer 5 w ->
     (forall loc val, 0 <= loc < 256 -> 0 <= val < 256 ->
        exists w', __write loc val w = Ret tt w' /\
                   Z.testbit (regs w' 0x0f) 6 = true) /\
     (forall buf, forallb Py.is_byte buf = true ->
        exists w', __writeBuf buf w = Ret tt w' /\
                   Z.testbit (regs w' 0x0f) 6 = true)) /\
  (faults w = Some 2%nat ->
     (forall loc val, 0 <= loc < 256 -> 0 <= val < 256 ->
        exists w', __write loc val w = Raise TransportFault w' /\
                   Z.testbit (regs w' 0x0f) 6 = false) /\
     (forall buf,
        exists w', __writeBuf buf w = Raise TransportFault w' /\
                   Z.testbit (regs w' 0x0f) 6 = false)).
Proof.
  intros Hw. split.
  - intros Hok. split.
    + intros loc val Hloc Hval. eexists. split.
      * apply write_ok; assumption.
      * apply locked_control. apply after_frame_ready.
        -- cbn [forallb]. apply is_byte_true in Hloc, Hval.
           rewrite Hloc, Hval. reflexivity.
        -- apply unlocked_by_ready, Hw.
    + intros buf Hb. eexists. split.
      * apply writeBuf_ok; assumption.
      * apply locked_control. apply after_frame_ready; [exact Hb |].
        apply unlocked_by_ready, Hw.
  - intros Hko. split.
    + intros loc val Hloc Hval. apply write_data_fault; assumption.
    + intros buf. apply writeBuf_data_fault; assumption.
Qed.

Lemma write_restores_protect_witness :
  ready (bench true 0x03) /\ can_transfer 5 (bench true 0x03) /\
  exists w', __write 0x80 0x05 (bench true 0x03) = Ret tt w' /\
             Z.testbit (regs w' 0x0f) 6 = true.
Proof.
  assert (Hw : ready (bench true 0x03)) by (apply bench_ready; lia).
  split; [exact Hw | split; [exact I |]].
  destruct (write_restores_protect (bench true 0x03) Hw) as [H _].
  destruct (H I) as [Hwrite _].
  apply (Hwrite 0x80 0x05); lia.
Defined.

(** C2, as stated, fails: the device starts Locked, the transfer of the data
    frame raises, and the fault leaves [__write] with bit 6 clear. *)
Lemma write_fault_leaves_unlocked :
  Z.testbit (regs (faulty_bench true 0x40 2) 0x0f) 6 = true /\
  exists w', __write 0x80 0x05 (faulty_bench true 0x40 2) =
               Raise TransportFault w' /\
             sent w' = [[0x8f; 0x00]] /\
             Z.testbit (regs w' 0x0f) 6 = false.
Proof.
  split; [reflexivity |].
  eexists. split; [vm_compute; reflexivity | split; reflexivity].
Qed.

(** C3 at a failing input: the control register holds 0x03 (both alarm
    interrupts enabled, device Unlocked).  [setTime] sends [0x8f, 0x00] as
    its unlock frame, and after the lock frame the register is 0x40: the
    alarm-enable bits are gone. *)
Theorem unlock_frame_drops_alarm_enables :
  forall gate,
  exists w', setTime 14 30 0 0 0 (bench gate 0x03) = Ret tt w' /\
             sent w' = [[0x8f; 0x00]; [0x80; 0x00; 0x30; 0x14]; [0x8f; 0x40]] /\
             regs w' 0x0f = 0x40.
Proof.
  intros [|]; eexists; (split; [vm_compute; reflexivity | split; reflexivity]).
Qed.

(** On a device that stores every write, the same happens from the Locked
    state 0x43. *)
Lemma ungated_unlock_drops_alarm_enables :
  exists w', setTime 14 30 0 0 0 (bench false 0x43) = Ret tt w' /\
             sent w' = [[0x8f; 0x00]; [0x80; 0x00; 0x30; 0x14]; [0x8f; 0x40]] /\
             regs w' 0x0f = 0x40.
Proof. eexists. split; [vm_compute; reflexivity | split; reflexivity]. Qed.

(** The byte of the unlock frame keeps bit 2 of the control register and
    nothing else. *)
Lemma unlock_frame_keeps_bit2_only c i :
  0 <= i -> Z.testbit (Z.land c 0x04) i = Z.testbit c i && (i =? 2).
Proof.
  intros Hi. rewrite Z.land_spec. f_equal.
  change 0x04 with (2 ^ 2). rewrite Z.pow2_bits_eqb by lia.
  rewrite Z.eqb_sym. reflexivity.
Qed.

End WriteProtect.

(** ** Chip select and bus ownership *)

Section Release.

Lemma at_rest_released w : released (at_rest w).
Proof. split; reflexivity. Qed.

(** C8, as the code has it: every transaction whose transfers succeed ends
    with the chip-select line low and the bus released ([__read],
    [__writeOn], [__writeOff], [__write], [__writeBuf]); a transfer that
    raises is not followed by any cleanup, so the fault of a read reaches the
    caller with the chip-select line high and the bus still held. *)
Theorem transactions_release w :
  ready w ->
  (can_transfer 5 w ->
     (forall loc, -1 <= loc <= 17 ->
        exists v w', __read loc w = Ret v w' /\ released w') /\
     (exists w', __writeOn w = Ret tt w' /\ released w') /\
     (exists w', __writeOff w = Ret tt w' /\ released w') /\
     (forall loc val, 0 <= loc < 256 -> 0 <= val < 256 ->
        exists w', __write loc val w = Ret tt w' /\ released w') /\
     (forall buf, forallb Py.is_byte buf = true ->
        exists w', __writeBuf buf w = Ret tt w' /\ released w')) /\
  (faults w = Some O ->
     forall loc,
       exists w', __read loc w = Raise TransportFault w' /\
                  cs w' = true /\ owned w' = true).
Proof.
  intros Hw. pose proof (ready_free w Hw) as Hfree.
  pose proof (ready_regs w Hw 0x0f) as Hc. split.
  - intros Hok.
    pose proof (can_transfer_le 5 1 w ltac:(lia) Hok) as Hok1.
    pose proof (can_transfer_le 5 2 w ltac:(lia) Hok) as Hok2.
    repeat split.
    + intros loc Hloc. destruct (Z.eq_dec loc (-1)) as [-> | Hne].
      * do 2 eexists. split; [apply read_all; assumption |].
        apply at_rest_released.
      * do 2 eexists. split; [apply read_reg; [assumption .. | lia] |].
        apply at_rest_released.
    + eexists. split; [apply writeOn_ok; assumption | apply at_rest_released].
    + eexists. split; [apply writeOff_ok; assumption | apply at_rest_released].
    + intros loc val Hloc Hval. eexists.
      split; [apply write_ok; assumption | apply at_rest_released].
    + intros buf Hb. eexists.
      split; [apply writeBuf_ok; assumption | apply at_rest_released].
  - intros Hko loc. eexists. split; [apply read_fault; assumption |].
    split; reflexivity.
Qed.

Lemma transactions_release_witness :
  ready (bench true 0x40) /\ can_transfer 5 (bench true 0x40) /\
  exists v w', __read 0x02 (bench true 0x40) = Ret v w' /\ released w'.
Proof.
  assert (Hw : ready (bench true 0x40)) by (apply bench_ready; lia).
  split; [exact Hw | split; [exact I |]].
  destruct (transactions_release (bench true 0x40) Hw) as [H _].
  destruct (H I) as [Hread _].
  apply (Hread 0x02); lia.
Defined.

(** C8, as stated, fails: the transfer of a read raises, and the fault
    reaches the caller with the chip-select line high and the bus held. *)
Lemma read_fault_keeps_bus :
  released (faulty_bench true 0x40 0) /\
  exists w', __read 0x02 (faulty_bench true 0x40 0) = Raise TransportFault w' /\
             cs w' = true /\ owned w' = true.
Proof.
  split; [split; reflexivity |].
  eexists. split; [vm_compute; reflexivity | split; reflexivity].
Qed.

(** After such a fault the next transaction never starts: [__lock] polls a
    bus that the driver itself still holds. *)
Lemma read_after_fault_spins :
  exists w', __read 0x02 (final (__read 0x02 (faulty_bench true 0x40 0))) =
               Spin w'.
Proof. eexists. vm_compute. reflexivity. Qed.

End Release.

(** ** Frames on the bus *)

Section Frames.

(** C9: setting the time to 14:30:00 in 24-hour mode writes the data frame
    [0x80, 0x00, 0x30, 0x14] (write address, BCD seconds, minutes, hours),
    with exactly one control-byte frame before it, which clears write
    protect, and one after it, which sets write protect. *)
Theorem setTime_frames w :
  ready w -> can_transfer 5 w ->
  exists w' u l,
    setTime 14 30 0 0 0 w = Ret tt w' /\
    sent w' = sent w ++ [[0x8f; u]; [0x80; 0x00; 0x30; 0x14]; [0x8f; l]] /\
    Z.testbit u 6 = false /\ Z.testbit l 6 = true.
Proof.
  intros Hw Hok.
  exists (locked_by (after_frame [0x80; 0x00; 0x30; 0x14] (unlocked_by w))).
  exists (Z.land (regs w 0x0f) 0x04).
  exists (Z.lor (regs (after_frame [0x80; 0x00; 0x30; 0x14] (unlocked_by w)) 0x0f)
                0x40).
  split; [| split; [| split]].
  - unfold setTime.
    rewrite (bind_Ret _ _ w [0x80; 0x00; 0x30; 0x14] w eq_refl).
    apply writeBuf_ok; [assumption | assumption | reflexivity].
  - apply write_operation_sent.
  - rewrite Z.land_spec. apply andb_false_r.
  - rewrite Z.lor_spec. apply orb_true_r.
Qed.

Lemma setTime_frames_witness :
  ready (bench true 0x40) /\ can_transfer 5 (bench true 0x40) /\
  exists w',
    setTime 14 30 0 0 0 (bench true 0x40) = Ret tt w' /\
    sent w' = [[0x8f; 0x00]; [0x80; 0x00; 0x30; 0x14]; [0x8f; 0x40]].
Proof.
  assert (Hw : ready (bench true 0x40)) by (apply bench_ready; lia).
  split; [exact Hw | split; [exact I |]].
  destruct (setTime_frames (bench true 0x40) Hw I) as (w' & u & l & E & _).
  exists w'. split; [exact E |].
  vm_compute in E. injection E as <-. reflexivity.
Defined.

(** C10: whatever the control register holds, [enableHzPin] sends the data
    byte 0x04 and [disableHzPin] the data byte 0x00; after the lock frame the
    control register is 0x44, respectively 0x40, so the alarm-enable bits 0
    and 1 are clear. *)
Theorem hz_pin_overwrites_control w :
  ready w -> can_transfer 5 w ->
  (exists w',
     enableHzPin w = Ret tt w' /\
     sent w' = sent w ++ [unlock_frame w; [0x8f; 0x04]; [0x8f; 0x44]] /\
     regs w' 0x0f = 0x44 /\
     Z.testbit (regs w' 0x0f) 0 = false /\ Z.testbit (regs w' 0x0f) 1 = false) /\
  (exists w',
     disableHzPin w = Ret tt w' /\
     sent w' = sent w ++ [unlock_frame w; [0x8f; 0x00]; [0x8f; 0x40]] /\
     regs w' 0x0f = 0x40 /\
     Z.testbit (regs w' 0x0f) 0 = false /\ Z.testbit (regs w' 0x0f) 1 = false).
Proof.
  intros Hw Hok.
  pose proof (unlocked_control w Hw) as Hu.
  assert (Hdata : forall v,
            regs (after_frame [0x8f; v] (unlocked_by w)) 0x0f = v).
  { intros v.
    change (dev_write (wp_gate w) [0x8f; v] (regs (unlocked_by w)) 0x0f = v).
    apply control_written_unlocked, Hu. }
  assert (Hlock : forall v,
            Z.testbit v 6 = false ->
            regs (locked_by (after_frame [0x8f; v] (unlocked_by w))) 0x0f =
              Z.lor v 0x40).
  { intros v Hv.
    change (dev_write (wp_gate w)
              [0x8f; Z.lor (regs (after_frame [0x8f; v] (unlocked_by w)) 0x0f) 0x40]
              (regs (after_frame [0x8f; v] (unlocked_by w))) 0x0f = Z.lor v 0x40).
    rewrite control_written_unlocked by (rewrite Hdata; exact Hv).
    rewrite Hdata. reflexivity. }
  split.
  - exists (locked_by (after_frame [0x8f; 0x04] (unlocked_by w))).
    split; [apply write_ok; [assumption | assumption | lia | lia] |].
    split.
    + rewrite write_operation_sent. unfold lock_frame.
      rewrite Hdata. reflexivity.
    + rewrite Hlock by reflexivity. repeat split.
  - exists (locked_by (after_frame [0x8f; 0x00] (unlocked_by w))).
    split; [apply write_ok; [assumption | assumption | lia | lia] |].
    split.
    + rewrite write_operation_sent. unfold lock_frame.
      rewrite Hdata. reflexivity.
    + rewrite Hlock by reflexivity. repeat split.
Qed.

Lemma hz_pin_overwrites_control_witness :
  ready (bench true 0x43) /\ can_transfer 5 (bench true 0x43) /\
  (exists w', enableHzPin (bench true 0x43) = Ret tt w' /\ regs w' 0x0f = 0x44) /\
  (exists w', disableHzPin (bench true 0x43) = Ret tt w' /\ regs w' 0x0f = 0x40).
Proof.
  assert (Hw : ready (bench true 0x43)) by (apply bench_ready; lia).
  split; [exact Hw | split; [exact I |]].
  destruct (hz_pin_overwrites_control (bench true 0x43) Hw I)
    as [(w1 & E1 & _ & C1 & _) (w2 & E2 & _ & C2 & _)].
  split; [exists w1 | exists w2]; split; assumption.
Defined.

End Frames.

(** ** Trickle charger *)

Section Charger.

Lemma read_then (f : Z -> Z) w loc :
  owned w = false -> can_transfer 1 w -> 0 <= loc <= 17 ->
  (c <- __read loc ;; c <- as_int c ;; ret (f c)) w =
    Ret (f (regs w loc)) (after_read w).
Proof.
  intros Hfree Hok Hloc.
  rewrite (bind_Ret _ _ _ _ _ (read_reg w loc Hfree Hok Hloc)). reflexivity.
Qed.

Lemma charger_bytes c :
  0 <= c < 256 ->
  Py.is_byte (Z.lor (Z.land c (-0x09)) 0x04) = true /\
  Py.is_byte (Z.lor (Z.land c (-0x05)) 0x08) = true /\
  Py.is_byte (Z.lor (Z.land c (-0x03)) 0x01) = true /\
  Py.is_byte (Z.lor (Z.land c (-0x02)) 0x02) = true /\
  Py.is_byte (Z.lor (Z.lor c 0x01) 0x02) = true.
Proof.
  intros Hc. repeat split; revert c Hc.
  - apply (forall_bytes (fun k => Py.is_byte (Z.lor (Z.land k (-0x09)) 0x04))).
    vm_compute. reflexivity.
  - apply (forall_bytes (fun k => Py.is_byte (Z.lor (Z.land k (-0x05)) 0x08))).
    vm_compute. reflexivity.
  - apply (forall_bytes (fun k => Py.is_byte (Z.lor (Z.land k (-0x03)) 0x01))).
    vm_compute. reflexivity.
  - apply (forall_bytes (fun k => Py.is_byte (Z.lor (Z.land k (-0x02)) 0x02))).
    vm_compute. reflexivity.
  - apply (forall_bytes (fun k => Py.is_byte (Z.lor (Z.lor k 0x01) 0x02))).
    vm_compute. reflexivity.
Qed.

Lemma after_read_can_transfer n w :
  can_transfer (S n) w -> can_transfer n (after_read w).
Proof. intros H. exact (spend_can_transfer n w H). Qed.

Lemma write_operation_can_transfer n buf w :
  can_transfer (5 + n) w ->
  can_transfer n (locked_by (after_frame buf (unlocked_by w))).
Proof.
  intros H. apply after_frame_can_transfer, after_read_can_transfer.
  apply after_frame_can_transfer, unlocked_by_can_transfer. exact H.
Qed.

Lemma write_operation_ready buf w :
  forallb Py.is_byte buf = true -> ready w ->
  ready (locked_by (after_frame buf (unlocked_by w))).
Proof.
  intros Hb Hw. apply locked_by_ready, after_frame_ready; [exact Hb |].
  apply unlocked_by_ready, Hw.
Qed.

Lemma charger_frame_stored gate v rg :
  Z.testbit (rg 0x0f) 6 = false -> dev_write gate [0x91; v] rg 0x11 = v.
Proof.
  intros H. change (dev_write gate [0x91; v] rg) with (store gate 0x11 v rg).
  unfold store. change (0x11 =? 0x0f) with false.
  change (0x11 =? 0x10) with false. cbv iota.
  rewrite H, andb_false_r. reflexivity.
Qed.

(** A byte written to the charger register inside a write operation is
    stored: the unlock frame has cleared write protect. *)
Lemma charger_write_stored w v :
  ready w ->
  regs (locked_by (after_frame [0x91; v] (unlocked_by w))) 0x11 = v.
Proof.
  intros Hw. pose proof (unlocked_control w Hw) as Hu.
  change (regs (locked_by (after_frame [0x91; v] (unlocked_by w))) 0x11)
    with (dev_write (wp_gate w)
            (lock_frame (after_frame [0x91; v] (unlocked_by w)))
            (dev_write (wp_gate w) [0x91; v] (regs (unlocked_by w))) 0x11).
  unfold lock_frame. rewrite control_frame_elsewhere by lia.
  apply charger_frame_stored, Hu.
Qed.

(** C7, as the code has it: [setChargerState] checks nothing and raises no
    fault of its own.  For every diode and resistor selector, also a falsy
    diode with a non-zero resistor, it carries out two write operations on
    the charger register 0x91 (the diode byte, then the resistor byte), each
    between an unlock and a lock frame, and the register ends as the
    resistor byte. *)
Theorem setChargerState_always_writes w d r :
  ready w -> can_transfer 12 w ->
  exists w' u1 d1 l1 u2 r1 l2,
    setChargerState d r w = Ret tt w' /\
    sent w' = sent w ++ [[0x8f; u1]; [0x91; d1]; [0x8f; l1];
                         [0x8f; u2]; [0x91; r1]; [0x8f; l2]] /\
    d1 = (if d =? 0 then Z.lor (Z.land (regs w 0x11) (-0x09)) 0x04
          else Z.lor (Z.land (regs w 0x11) (-0x05)) 0x08) /\
    r1 = (if r =? 0 then Z.lor (Z.land d1 (-0x03)) 0x01
          else if r =? 1 then Z.lor (Z.land d1 (-0x02)) 0x02
          else Z.lor (Z.lor d1 0x01) 0x02) /\
    regs w' 0x11 = r1.
Proof.
  intros Hw Hok.
  pose proof (ready_regs w Hw 0x11) as Hc.
  pose proof (ready_free w Hw) as Hfree.
  set (d1 := if d =? 0 then Z.lor (Z.land (regs w 0x11) (-0x09)) 0x04
             else Z.lor (Z.land (regs w 0x11) (-0x05)) 0x08).
  assert (Hd1 : Py.is_byte d1 = true).
  { unfold d1. destruct (charger_bytes _ Hc) as (H1 & H2 & _).
    destruct (d =? 0); assumption. }
  set (w1 := after_read w).
  set (w2 := locked_by (after_frame [0x91; d1] (unlocked_by w1))).
  assert (Hw1 : ready w1) by (apply after_read_ready, Hw).
  assert (Hw2 : ready w2)
    by (apply write_operation_ready; [cbn [forallb]; rewrite Hd1 |];
        [reflexivity | exact Hw1]).
  assert (Hreg2 : regs w2 0x11 = d1) by (apply charger_write_stored, Hw1).
  set (r1 := if r =? 0 then Z.lor (Z.land d1 (-0x03)) 0x01
             else if r =? 1 then Z.lor (Z.land d1 (-0x02)) 0x02
             else Z.lor (Z.lor d1 0x01) 0x02).
  assert (Hr1 : Py.is_byte r1 = true).
  { unfold r1. apply is_byte_true in Hd1.
    destruct (charger_bytes _ Hd1) as (_ & _ & H3 & H4 & H5).
    destruct (r =? 0); [assumption |]. destruct (r =? 1); assumption. }
  set (w3 := after_read w2).
  set (w4 := locked_by (after_frame [0x91; r1] (unlocked_by w3))).
  assert (Hw3 : ready w3) by (apply after_read_ready, Hw2).
  assert (Hok1 : can_transfer 11 w1) by (apply after_read_can_transfer, Hok).
  assert (Hok2 : can_transfer 6 w2)
    by (apply write_operation_can_transfer, Hok1).
  assert (Hok3 : can_transfer 5 w3) by (apply after_read_can_transfer, Hok2).
  exists w4, (Z.land (regs w1 0x0f) 0x04), d1,
    (Z.lor (regs (after_frame [0x91; d1] (unlocked_by w1)) 0x0f) 0x40),
    (Z.land (regs w3 0x0f) 0x04), r1,
    (Z.lor (regs (after_frame [0x91; r1] (unlocked_by w3)) 0x0f) 0x40).
  split; [| split; [| split; [reflexivity | split; [reflexivity |]]]].
  - unfold setChargerState.
    assert (E1 : (if negb (Py.truthy d)
                  then (c <- __read 0x11 ;; c <- as_int c ;;
                        ret (Z.lor (Z.land c (-0x09)) 0x04))
                  else (c <- __read 0x11 ;; c <- as_int c ;;
                        ret (Z.lor (Z.land c (-0x05)) 0x08))) w = Ret d1 w1).
    { unfold d1, Py.truthy. rewrite negb_involutive.
      destruct (d =? 0);
        apply read_then;
        [exact Hfree | exact (can_transfer_le 12 1 w ltac:(lia) Hok) | lia
        |exact Hfree | exact (can_transfer_le 12 1 w ltac:(lia) Hok) | lia]. }
    rewrite (bind_Ret _ _ _ _ _ E1).
    assert (E2 : __write 0x91 d1 w1 = Ret tt w2).
    { apply write_ok;
        [exact Hw1 | exact (can_transfer_le 11 5 w1 ltac:(lia) Hok1) | lia
        | apply is_byte_true, Hd1]. }
    rewrite (bind_Ret _ _ _ _ _ E2).
    assert (E3 : (if negb (Py.truthy r)
                  then (c <- __read 0x11 ;; c <- as_int c ;;
                        ret (Z.lor (Z.land c (-0x03)) 0x01))
                  else if r =? 1
                  then (c <- __read 0x11 ;; c <- as_int c ;;
                        ret (Z.lor (Z.land c (-0x02)) 0x02))
                  else (c <- __read 0x11 ;; c <- as_int c ;;
                        ret (Z.lor (Z.lor c 0x01) 0x02))) w2 = Ret r1 w3).
    { unfold r1, Py.truthy. rewrite negb_involutive, <- Hreg2.
      pose proof (can_transfer_le 6 1 w2 ltac:(lia) Hok2) as Hk.
      pose proof (ready_free w2 Hw2) as Hf2.
      destruct (r =? 0); [apply read_then; [assumption | assumption | lia] |].
      destruct (r =? 1); apply read_then; first [assumption | lia]. }
    rewrite (bind_Ret _ _ _ _ _ E3).
    apply write_ok; [exact Hw3 | exact Hok3 | lia | apply is_byte_true, Hr1].
  - unfold w4. rewrite write_operation_sent.
    change (sent w3) with (sent w2). unfold w2.
    rewrite write_operation_sent. change (sent w1) with (sent w).
    rewrite <- app_assoc. reflexivity.
  - apply charger_write_stored, Hw3.
Qed.

Lemma setChargerState_always_writes_witness :
  ready (bench true 0x40) /\ can_transfer 12 (bench true 0x40) /\
  exists w', setChargerState 0 1 (bench true 0x40) = Ret tt w' /\
             regs w' 0x11 = 0x06.
Proof.
  assert (Hw : ready (bench true 0x40)) by (apply bench_ready; lia).
  split; [exact Hw | split; [exact I |]].
  destruct (setChargerState_always_writes (bench true 0x40) 0 1 Hw I)
    as (w' & u1 & d1 & l1 & u2 & r1 & l2 & E & _ & Ed & Er & Hr).
  exists w'. split; [exact E |].
  rewrite Hr, Er, Ed. reflexivity.
Defined.

(** C7, as stated, fails: the diode selector is 0 and the resistor selector
    is not; the call returns without a fault after six frames, and the
    charger register has changed from 0x00 to 0x06. *)
Lemma setChargerState_accepts_no_diode :
  regs (bench true 0x40) 0x11 = 0x00 /\
  exists w', setChargerState 0 1 (bench true 0x40) = Ret tt w' /\
             sent w' = [[0x8f; 0x00]; [0x91; 0x04]; [0x8f; 0x40];
                        [0x8f; 0x00]; [0x91; 0x06]; [0x8f; 0x40]] /\
             regs w' 0x11 = 0x06.
Proof.
  split; [reflexivity |].
  eexists. split; [vm_compute; reflexivity | split; reflexivity].
Qed.

End Charger.

(** ** Alarms *)

Section Alarm.

(** The match flag is bit 7 of a field's byte, and masking with [-0x81]
    gives the BCD code back. *)
Lemma alarm_match_bit v f :
  0 <= v <= 79 -> 0 <= f <= 1 ->
  Z.land (Z.lor (dectobcd v) (0x80 * f)) (-0x81) = dectobcd v /\
  Z.land (Z.shiftr (Z.lor (dectobcd v) (0x80 * f)) 7) 1 = f.
Proof.
  intros Hv Hf.
  assert (E : f = 0 \/ f = 1) by lia.
  assert (H : forall g,
            forallb (fun k =>
                       (Z.land (Z.lor (dectobcd k) (0x80 * g)) (-0x81)
                          =? dectobcd k) &&
                       (Z.land (Z.shiftr (Z.lor (dectobcd k) (0x80 * g)) 7) 1
                          =? g))
                    (map (fun k => 0 + Z.of_nat k) (seq 0 80)) = true ->
            Z.land (Z.lor (dectobcd v) (0x80 * g)) (-0x81) = dectobcd v /\
            Z.land (Z.shiftr (Z.lor (dectobcd v) (0x80 * g)) 7) 1 = g).
  { intros g Hall.
    pose proof (forall_range _ 0 80 Hall v ltac:(lia)) as Hv'.
    cbv beta in Hv'. apply andb_true_iff in Hv'.
    rewrite !Z.eqb_eq in Hv'. exact Hv'. }
  destruct E as [-> | ->]; apply H; vm_compute; reflexivity.
Qed.

(** What [getAlarmTime] returns for a field is the binary text of the
    masked register, a string and not a number. *)
Lemma getAlarmTime_minute_text h m s w :
  0 <= m <= 79 ->
  let '(_, mt, _, _, _, fm, _, _) :=
    getAlarmTime_result h (Z.lor (dectobcd m) (0x80 * 1)) s w in
  mt = Py.bin (dectobcd m) /\ fm = 1.
Proof.
  intros Hm. cbn [getAlarmTime_result].
  destruct (alarm_match_bit m 1 Hm ltac:(lia)) as [E1 E2].
  rewrite E1, E2. split; reflexivity.
Qed.

(** C6 at a failing input: alarm 0 is set to 07:30:15 on weekday 3 with the
    four match flags true.  [getAlarmTime] returns the four match flags as 1,
    and for the fields the binary texts of their BCD bytes instead of 7, 30,
    15 and 3. *)
Theorem getAlarmTime_returns_binary_text :
  exists w1 w2,
    setAlarmTime 0 7 30 15 3 1 1 1 1 0 0 (bench true 0x40) = Ret tt w1 /\
    sent w1 = [[0x8f; 0x00]; [0x87; 0x95; 0xb0; 0x87; 0x83]; [0x8f; 0x40]] /\
    getAlarmTime 0 w1 =
      Ret ("0b111"%string, "0b110000"%string, "0b10101"%string,
           "0b11"%string, 1, 1, 1, 1) w2.
Proof.
  do 2 eexists. split; [vm_compute; reflexivity |].
  split; [reflexivity | vm_compute; reflexivity].
Qed.

End Alarm.

(** ** The clock through the device *)

Section Clock.

(** While write protect is clear, a register other than control and status
    takes the byte written to it. *)
Lemma store_unlocked gate r v rg :
  Z.testbit (rg 0x0f) 6 = false -> r <> 0x0f -> r <> 0x10 ->
  forall a, store gate r v rg a = if a =? r then v else rg a.
Proof.
  intros Hu H15 H16 a. unfold store.
  destruct (Z.eqb_spec r 0x0f) as [E | _]; [contradiction |].
  destruct (Z.eqb_spec r 0x10) as [E | _]; [contradiction |].
  rewrite Hu, andb_false_r. reflexivity.
Qed.

Lemma clock_frame_stored gate x0 x1 x2 rg :
  Z.testbit (rg 0x0f) 6 = false ->
  dev_write gate [0x80; x0; x1; x2] rg 0x00 = x0 /\
  dev_write gate [0x80; x0; x1; x2] rg 0x01 = x1 /\
  dev_write gate [0x80; x0; x1; x2] rg 0x02 = x2.
Proof.
  intros Hu.
  change (dev_write gate [0x80; x0; x1; x2] rg)
    with (store gate 2 x2 (store gate 1 x1 (store gate 0 x0 rg))).
  assert (H0 : Z.testbit (store gate 0 x0 rg 0x0f) 6 = false)
    by (rewrite store_unlocked by (assumption || lia); exact Hu).
  assert (H1 : Z.testbit (store gate 1 x1 (store gate 0 x0 rg) 0x0f) 6 = false)
    by (rewrite store_unlocked by (assumption || lia); exact H0).
  repeat split;
    rewrite (store_unlocked gate 2) by (assumption || lia);
    rewrite ?(store_unlocked gate 1) by (assumption || lia);
    rewrite ?(store_unlocked gate 0) by (assumption || lia);
    reflexivity.
Qed.

Lemma clock_bytes_after_write w x0 x1 x2 :
  ready w ->
  let w' := locked_by (after_frame [0x80; x0; x1; x2] (unlocked_by w)) in
  regs w' 0x00 = x0 /\ regs w' 0x01 = x1 /\ regs w' 0x02 = x2.
Proof.
  intros Hw w'. pose proof (unlocked_control w Hw) as Hu.
  destruct (clock_frame_stored (wp_gate w) x0 x1 x2 (regs (unlocked_by w)) Hu)
    as (E0 & E1 & E2).
  assert (H : forall a, a <> 0x0f ->
            regs w' a =
            dev_write (wp_gate w) [0x80; x0; x1; x2] (regs (unlocked_by w)) a).
  { intros a Ha. unfold w'.
    change (regs (locked_by (after_frame [0x80; x0; x1; x2] (unlocked_by w))) a)
      with (dev_write (wp_gate w)
              (lock_frame (after_frame [0x80; x0; x1; x2] (unlocked_by w)))
              (dev_write (wp_gate w) [0x80; x0; x1; x2]
                 (regs (unlocked_by w))) a).
    unfold lock_frame. apply control_frame_elsewhere, Ha. }
  rewrite !H by lia. auto.
Qed.

Lemma dectobcd_byte n : 0 <= n <= 99 -> Py.is_byte (dectobcd n) = true.
Proof.
  intros Hn. apply (forall_range (fun k => Py.is_byte (dectobcd k)) 0 100).
  - vm_compute. reflexivity.
  - lia.
Qed.

Lemma setTime_hour_byte h th ap :
  0 <= h <= 23 -> Py.is_byte (setTime_hour h th ap) = true.
Proof.
  intros Hh. unfold setTime_hour.
  destruct (Py.truthy th); [| apply dectobcd_byte; lia].
  cbv zeta.
  assert (E : ap mod 2 = 0 \/ ap mod 2 = 1)
    by (pose proof (Z.mod_pos_bound ap 2); lia).
  destruct E as [-> | ->].
  - apply (forall_range
             (fun k => Py.is_byte
                (Z.lor (Z.lor (dectobcd (if k <=? 12 then k else k - 12)) 0x40)
                       (0x20 * 0))) 0 24); [vm_compute; reflexivity | lia].
  - apply (forall_range
             (fun k => Py.is_byte
                (Z.lor (Z.lor (dectobcd (if k <=? 12 then k else k - 12)) 0x40)
                       (0x20 * 1))) 0 24); [vm_compute; reflexivity | lia].
Qed.

(** The registers [setTime] fills are the ones [getTime] reads back. *)
Lemma setTime_then_getTime w h m s th ap :
  ready w -> can_transfer 8 w ->
  0 <= h <= 23 -> 0 <= m <= 59 -> 0 <= s <= 59 ->
  exists w1 w2,
    setTime h m s th ap w = Ret tt w1 /\
    getTime w1 =
      Ret (fst (fst (getTime_hour (setTime_hour h th ap))), m, s,
           snd (fst (getTime_hour (setTime_hour h th ap))),
           snd (getTime_hour (setTime_hour h th ap))) w2.
Proof.
  intros Hw Hok Hh Hm Hs.
  set (hb := setTime_hour h th ap).
  set (buf := [0x80; dectobcd s; dectobcd m; hb]).
  assert (Hb : forallb Py.is_byte buf = true).
  { unfold buf, hb. cbn [forallb].
    rewrite (dectobcd_byte s), (dectobcd_byte m), (setTime_hour_byte h th ap)
      by lia. reflexivity. }
  set (w1 := locked_by (after_frame buf (unlocked_by w))).
  assert (Hw1 : ready w1) by (apply write_operation_ready; assumption).
  assert (Hok1 : can_transfer 3 w1)
    by (apply (write_operation_can_transfer 3), Hok).
  destruct (clock_bytes_after_write w (dectobcd s) (dectobcd m) hb Hw)
    as (E0 & E1 & E2).
  fold buf in E0, E1, E2. fold w1 in E0, E1, E2.
  exists w1, (after_read (after_read (after_read w1))). split.
  - unfold setTime. fold hb. fold buf.
    rewrite (bind_Ret _ _ _ _ _ (bytearray_of_bytes buf w Hb)).
    apply writeBuf_ok;
      [exact Hw | exact (can_transfer_le 8 5 w ltac:(lia) Hok) | exact Hb].
  - pose proof (after_read_can_transfer 2 w1 Hok1) as Hok2.
    pose proof (after_read_can_transfer 1 _ Hok2) as Hok3.
    unfold getTime.
    rewrite (bind_Ret _ _ _ _ _
               (read_reg w1 0x02 (ready_free w1 Hw1)
                  (can_transfer_le 3 1 w1 ltac:(lia) Hok1) ltac:(lia))).
    unfold as_int at 1, ret at 1, bind at 1.
    rewrite (bind_Ret _ _ _ _ _
               (read_reg (after_read w1) 0x01 eq_refl
                  (can_transfer_le 2 1 _ ltac:(lia) Hok2) ltac:(lia))).
    unfold as_int at 1, ret at 1, bind at 1.
    rewrite (bind_Ret _ _ _ _ _
               (read_reg (after_read (after_read w1)) 0x00 eq_refl Hok3
                  ltac:(lia))).
    unfold as_int, ret, bind.
    change (regs (after_read (after_read w1)) 0x00) with (regs w1 0x00).
    change (regs (after_read w1) 0x01) with (regs w1 0x01).
    rewrite E0, E1, E2.
    rewrite (bcdtodec_dectobcd_low m), (bcdtodec_dectobcd_low s) by lia.
    reflexivity.
Qed.

(** X12: the time set in either mode is the time read back: [setTime]
    followed by [getTime] returns the hour, minutes, seconds, mode flag and
    AM/PM value that were set (hours 0-23 in 24-hour mode, 1-12 with AM/PM
    0 or 1 in 12-hour mode, minutes and seconds 0-59). *)
Lemma clock_roundtrip w h m s th ap :
  ready w -> can_transfer 8 w -> 0 <= m <= 59 -> 0 <= s <= 59 ->
  (th = 0 /\ 0 <= h <= 23 /\ ap = 0) \/
  (th = 1 /\ 1 <= h <= 12 /\ 0 <= ap <= 1) ->
  exists w1 w2,
    setTime h m s th ap w = Ret tt w1 /\
    getTime w1 = Ret (h, m, s, th, ap) w2.
Proof.
  intros Hw Hok Hm Hs Hmode.
  assert (Hh : 0 <= h <= 23) by lia.
  destruct (setTime_then_getTime w h m s th ap Hw Hok Hh Hm Hs)
    as (w1 & w2 & E1 & E2).
  exists w1, w2. split; [exact E1 |]. rewrite E2.
  destruct Hmode as [(-> & H24 & ->) | (-> & H12 & Hap)].
  - rewrite (hour24_roundtrip h 0 H24). reflexivity.
  - rewrite (hour12_roundtrip h ap H12 Hap). reflexivity.
Qed.

End Clock.

(** * Further properties of the driver *)

(** ** Edges of the codecs *)

Section CodecEdges.

(** A subscription fails exactly outside [-len, len). *)
Lemma index_None {A : Type} (l : list A) i :
  Py.index l i = None <->
  i < - Z.of_nat (List.length l) \/ Z.of_nat (List.length l) <= i.
Proof.
  unfold Py.index.
  destruct (Z.leb_spec 0 i) as [H0 | H0];
    destruct (Z.ltb_spec i (Z.of_nat (List.length l))) as [H1 | H1];
    destruct (Z.leb_spec (- Z.of_nat (List.length l)) i) as [H2 | H2];
    destruct (Z.ltb_spec i 0) as [H3 | H3];
    cbn [andb];
    first [ lia
          | rewrite nth_error_None; lia
          | split; [intros _; lia | reflexivity] ].
Qed.



(** X2: the weekday follows the day of the month: one day later is the next
    weekday (7 is followed by 1), seven days later the same weekday. *)
Theorem getDayFromDate_next_day y m d v :
  getDayFromDate y m d = Some v ->
  getDayFromDate y m (d + 1) = Some (v mod 7 + 1) /\
  getDayFromDate y m (d + 7) = Some v.
Proof.
  unfold getDayFromDate. cbv zeta.
  destruct (Py.index [0; 3; 2; 5; 0; 3; 5; 1; 4; 6; 2; 4] (m - 1)) as [tm |];
    [| discriminate].
  intros H. injection H as <-.
  set (y' := y - (if m <? 3 then 1 else 0)).
  set (k := y' + Py.int_div y' 4 - Py.int_div y' 100 + Py.int_div y' 400 + tm).
  split; f_equal.
  - replace (k + (d + 1)) with ((k + d) + 1) by lia.
    rewrite <- (Z.add_mod_idemp_l (k + d) 1 7) by lia.
    pose proof (Z.mod_pos_bound (k + d) 7 ltac:(lia)) as Hb.
    destruct (Z.eq_dec ((k + d) mod 7) 6) as [E | E].
    + rewrite E. reflexivity.
    + rewrite (Z.mod_small ((k + d) mod 7 + 1) 7) by lia. reflexivity.
  - replace (k + (d + 7)) with ((k + d) + 1 * 7) by lia.
    rewrite Z.mod_add by lia. reflexivity.
Qed.

Lemma getDayFromDate_next_day_witness :
  getDayFromDate 2024 2 29 = Some 5 /\
  getDayFromDate 2024 2 (29 + 1) = Some 6 /\
  getDayFromDate 2024 2 (29 + 7) = Some 5.
Proof.
  split; [reflexivity |].
  exact (getDayFromDate_next_day 2024 2 29 5 eq_refl).
Defined.





Lemma low_mask_ignores_top_bit b k n :
  0 <= k <= 7 ->
  Z.testbit (Z.land (Z.lor b 0x80) (Z.ones k)) n =
  Z.testbit (Z.land b (Z.ones k)) n.
Proof.
  intros Hk. rewrite !Z.land_spec, Z.lor_spec.
  destruct (Z.neg_nonneg_cases n) as [Hn | Hn].
  - rewrite !(Z.testbit_neg_r _ n) by lia. reflexivity.
  - destruct (Z.lt_ge_cases n k) as [Hlt | Hge].
    + replace (Z.testbit 0x80 n) with false; [rewrite orb_false_r; reflexivity |].
      change 0x80 with (2 ^ 7). rewrite Z.pow2_bits_eqb by lia.
      symmetry. apply Z.eqb_neq. lia.
    + rewrite Z.ones_spec_high by lia. rewrite !andb_false_r. reflexivity.
Qed.

(** X4: [bcdtodec] never sees bit 7: setting it in any integer leaves the
    decoded value as it was, and every decoded value lies in 0-85. *)
Theorem bcdtodec_ignores_top_bit b :
  bcdtodec (Z.lor b 0x80) = bcdtodec b /\ 0 <= bcdtodec b <= 85.
Proof.
  unfold bcdtodec. change 0x07 with (Z.ones 3). change 0x0f with (Z.ones 4).
  split.
  - f_equal; [f_equal |].
    + apply Z.bits_inj'. intros n Hn.
      rewrite !Z.land_spec, !Z.shiftr_spec, Z.lor_spec by lia.
      destruct (Z.lt_ge_cases n 3) as [Hlt | Hge].
      * replace (Z.testbit 0x80 (n + 4)) with false;
          [rewrite orb_false_r; reflexivity |].
        change 0x80 with (2 ^ 7). rewrite Z.pow2_bits_eqb by lia.
        symmetry. apply Z.eqb_neq. lia.
      * rewrite Z.ones_spec_high by lia. rewrite !andb_false_r. reflexivity.
    + apply Z.bits_inj'. intros n _.
      apply low_mask_ignores_top_bit. lia.
  - rewrite !Z.land_ones by lia.
    pose proof (Z.mod_pos_bound (Z.shiftr b 4) (2 ^ 3) ltac:(lia)).
    pose proof (Z.mod_pos_bound b (2 ^ 4) ltac:(lia)).
    change (2 ^ 3) with 8 in *. change (2 ^ 4) with 16 in *. lia.
Qed.

(** X5: [__lock] polls [try_lock] until it succeeds: on a free bus the first
    poll acquires it, on a held bus no number of polls ends the loop. *)
Theorem lock_loop_outcome w :
  (owned w = false ->
     forall fuel, lock_loop (S fuel) w = Some (set_owned true w)) /\
  (owned w = true -> forall fuel, lock_loop fuel w = None).
Proof.
  split; intros H fuel.
  - apply lock_loop_free, H.
  - apply lock_loop_held, H.
Qed.

Lemma lock_loop_outcome_witness :
  lock_loop 1 (bench true 0x40) = Some (set_owned true (bench true 0x40)) /\
  lock_loop 9 (set_owned true (bench true 0x40)) = None.
Proof.
  split.
  - apply (proj1 (lock_loop_outcome (bench true 0x40)) eq_refl).
  - apply (proj2 (lock_loop_outcome (set_owned true (bench true 0x40))) eq_refl).
Defined.

End CodecEdges.

(** ** Reads *)

Section Reads.

Lemma read_only_ret {A : Type} (a : A) : read_only (ret a).
Proof. intros w. split; reflexivity. Qed.

Lemma read_only_raise {A : Type} (e : exn) : read_only (@raise A e).
Proof. intros w. split; reflexivity. Qed.

Lemma read_only_bind {A B : Type} (m : M A) (k : A -> M B) :
  read_only m -> (forall a, read_only (k a)) -> read_only (bind m k).
Proof.
  intros Hm Hk w. unfold bind. specialize (Hm w).
  destruct (m w) as [a w' | e w' | w']; cbn [final] in *; [| exact Hm ..].
  destruct (Hk a w') as [Hr Hs]. destruct Hm as [Hr' Hs'].
  split; [rewrite Hr; exact Hr' | rewrite Hs; exact Hs'].
Qed.

Lemma read_only_lock : read_only __lock.
Proof. intros w. unfold __lock. destruct (owned w); split; reflexivity. Qed.

Lemma read_only_cs_value b : read_only (cs_value b).
Proof. intros w. split; reflexivity. Qed.

Lemma read_only_transfer : read_only transfer.
Proof.
  intros w. unfold transfer. destruct (faults w) as [[| k] |]; split; reflexivity.
Qed.

Lemma read_only_prepare : read_only __prepare.
Proof.
  unfold __prepare. apply read_only_bind; [apply read_only_lock |].
  intros _. apply read_only_bind; [apply read_only_ret |].
  intros _. apply read_only_cs_value.
Qed.

Lemma read_only_finish : read_only __finish.
Proof. intros w. split; reflexivity. Qed.

Lemma read_only_readinto n : read_only (spi_readinto n).
Proof.
  unfold spi_readinto. apply read_only_bind; [apply read_only_transfer |].
  intros _ w. split; reflexivity.
Qed.

Lemma read_only_as_int v : read_only (as_int v).
Proof. destruct v; [apply read_only_ret | apply read_only_raise]. Qed.

Lemma read_only_read loc : read_only (__read loc).
Proof.
  unfold __read. apply read_only_bind; [apply read_only_prepare |].
  intros _. apply read_only_bind; [apply read_only_readinto |].
  intros result. apply read_only_bind; [apply read_only_finish |].
  intros _. destruct (loc =? -1); [apply read_only_ret |].
  destruct (Py.index result (loc + 1));
    [apply read_only_ret | apply read_only_raise].
Qed.

Ltac read_only_steps :=
  repeat first
    [ apply read_only_read
    | apply read_only_as_int
    | apply read_only_ret
    | apply read_only_raise
    | apply read_only_bind; [| intros ? ] ].

(** X6: the getters only read.  However [__read], [getTime], [getDate],
    [getAlarmTime] and [getAlarmStatus] end (value, fault, or the wait for a
    held bus), the device registers and the frames written to the bus are
    what they were before the call. *)
Theorem getters_read_only :
  (forall loc, read_only (__read loc)) /\
  read_only getTime /\
  read_only getDate /\
  (forall a, read_only (getAlarmTime a)) /\
  (forall a, read_only (getAlarmStatus a)).
Proof.
  split; [| split; [| split; [| split]]].
  - intros loc. apply read_only_read.
  - unfold getTime. read_only_steps.
  - unfold getDate. read_only_steps.
  - intros a. unfold getAlarmTime. read_only_steps.
  - intros a. unfold getAlarmStatus. read_only_steps.
    destruct (a <? 0); read_only_steps.
Qed.

Lemma dev_read_length w : List.length (dev_read 19 w) = 19%nat.
Proof. reflexivity. Qed.

Lemma read_out_of_range w loc :
  owned w = false -> can_transfer 1 w -> loc < -20 \/ 17 < loc ->
  __read loc w = Raise IndexError (after_read w).
Proof.
  intros Hfree Hok Hloc. unfold __read.
  rewrite (bind_Ret _ _ _ _ _ (prepare_free w Hfree)).
  unfold spi_readinto, bind at 1 2.
  rewrite (transfer_ok 0 (set_cs true (set_owned true w)) Hok).
  unfold bind at 1. cbn [__finish cs_value __unlock spi_unlock bind].
  destruct (Z.eqb_spec loc (-1)) as [E | _]; [lia |].
  change (dev_read 19 (spend (set_cs true (set_owned true w))))
    with (dev_read 19 w).
  assert (E : Py.index (dev_read 19 w) (loc + 1) = None).
  { apply index_None. rewrite dev_read_length. lia. }
  rewrite E. reflexivity.
Qed.

Lemma read_from_end w loc :
  owned w = false -> can_transfer 1 w -> -19 <= loc <= -2 ->
  __read loc w = Ret (PInt (regs w (loc + 19))) (after_read w).
Proof.
  intros Hfree Hok Hloc. unfold __read.
  rewrite (bind_Ret _ _ _ _ _ (prepare_free w Hfree)).
  unfold spi_readinto, bind at 1 2.
  rewrite (transfer_ok 0 (set_cs true (set_owned true w)) Hok).
  unfold bind at 1. cbn [__finish cs_value __unlock spi_unlock bind].
  destruct (Z.eqb_spec loc (-1)) as [E | _]; [lia |].
  change (dev_read 19 (spend (set_cs true (set_owned true w))))
    with (dev_read 19 w).
  assert (E : loc = -19 \/ loc = -18 \/ loc = -17 \/ loc = -16 \/ loc = -15 \/
              loc = -14 \/ loc = -13 \/ loc = -12 \/ loc = -11 \/ loc = -10 \/
              loc = -9 \/ loc = -8 \/ loc = -7 \/ loc = -6 \/ loc = -5 \/
              loc = -4 \/ loc = -3 \/ loc = -2) by lia.
  repeat (destruct E as [E | E]; [subst loc; reflexivity |]).
  subst loc; reflexivity.
Qed.

(** X7: the register argument of [__read] is an index into the 19-byte
    burst.  Registers 0-17 are read directly, -19 to -2 count from the end
    of the burst (register [loc+19]), and an address below -20 or above 17
    raises [IndexError] once the transaction is over, the chip-select line
    low and the bus released. *)
Theorem read_address_bounds w loc :
  owned w = false -> can_transfer 1 w ->
  (0 <= loc <= 17 -> __read loc w = Ret (PInt (regs w loc)) (after_read w)) /\
  (-19 <= loc <= -2 ->
     __read loc w = Ret (PInt (regs w (loc + 19))) (after_read w)) /\
  (loc < -20 \/ 17 < loc ->
     __read loc w = Raise IndexError (after_read w) /\
     released (after_read w)).
Proof.
  intros Hfree Hok. split; [| split].
  - intros H. apply read_reg; assumption.
  - intros H. apply read_from_end; assumption.
  - intros H. split; [apply read_out_of_range; assumption |].
    split; reflexivity.
Qed.

Lemma read_address_bounds_witness :
  __read 0x12 (bench true 0x40) =
    Raise IndexError (after_read (bench true 0x40)) /\
  __read (-2) (bench true 0x40) =
    Ret (PInt (regs (bench true 0x40) 0x11)) (after_read (bench true 0x40)).
Proof.
  destruct (read_address_bounds (bench true 0x40) 0x12 eq_refl I)
    as (_ & _ & H).
  destruct (read_address_bounds (bench true 0x40) (-2) eq_refl I)
    as (_ & H' & _).
  split; [apply H; lia | apply H'; lia].
Defined.

Lemma land_shiftr_bit c a :
  0 <= a -> Z.land (Z.shiftr c a) 1 = Z.b2z (Z.testbit c a).
Proof.
  intros Ha. change 1 with (Z.ones 1). rewrite Z.land_ones by lia.
  change (2 ^ 1) with 2. rewrite <- Z.bit0_mod.
  rewrite Z.shiftr_spec by lia. reflexivity.
Qed.

(** X8: [getAlarmStatus a] returns bit [a] of the status register (0x10) as
    0 or 1 for every [a >= 0], also beyond the two alarm slots, and raises
    [ValueError] for a negative [a], in both cases after one read that
    leaves the bus released. *)
Theorem getAlarmStatus_bit w a :
  owned w = false -> can_transfer 1 w ->
  getAlarmStatus a w =
    if a <? 0 then Raise ValueError (after_read w)
    else Ret (Z.b2z (Z.testbit (regs w 0x10) a)) (after_read w).
Proof.
  intros Hfree Hok. unfold getAlarmStatus.
  rewrite (bind_Ret _ _ _ _ _ (read_reg w 0x10 Hfree Hok ltac:(lia))).
  unfold as_int, ret, bind.
  destruct (Z.ltb_spec a 0) as [Ha | Ha]; [reflexivity |].
  rewrite land_shiftr_bit by lia. reflexivity.
Qed.

Lemma getAlarmStatus_bit_witness :
  getAlarmStatus 1 (bench true 0x40) = Ret 0 (after_read (bench true 0x40)) /\
  getAlarmStatus (-1) (bench true 0x40) =
    Raise ValueError (after_read (bench true 0x40)).
Proof.
  split.
  - exact (getAlarmStatus_bit (bench true 0x40) 1 eq_refl I).
  - exact (getAlarmStatus_bit (bench true 0x40) (-1) eq_refl I).
Defined.

(** X9: alarm slots beyond 1.  [getAlarmTime a] with [a >= 2] raises
    [IndexError] (its weekday read falls outside the burst) with the bus
    released and nothing written, while [setAlarmTime] takes any non-zero
    slot for alarm 1 and addresses its frame to 0x8B. *)
Theorem alarm_slot_beyond_one w a :
  ready w -> can_transfer 4 w -> 2 <= a ->
  (exists w', getAlarmTime a w = Raise IndexError w' /\
              released w' /\ sent w' = sent w /\ regs w' = regs w) /\
  (forall h m s wd fh fm fs fw th ap,
     hd 0 (setAlarmTime_frame a h m s wd fh fm fs fw th ap) = 0x8B).
Proof.
  intros Hw Hok Ha. pose proof (ready_free w Hw) as Hfree. split.
  - unfold getAlarmTime.
    destruct (Z.eq_dec a 2) as [-> | Hne].
    + pose proof (can_transfer_le 4 1 w ltac:(lia) Hok) as H1.
      pose proof (after_read_can_transfer 3 w Hok) as H2.
      pose proof (after_read_can_transfer 2 _ H2) as H3.
      pose proof (after_read_can_transfer 1 _ H3) as H4.
      rewrite (bind_Ret _ _ _ _ _
                 (read_reg w (0x09 + 4 * 2) Hfree H1 ltac:(lia))).
      rewrite (bind_Ret _ _ _ _ _
                 (read_reg (after_read w) (0x08 + 4 * 2) eq_refl
                    (can_transfer_le 3 1 _ ltac:(lia) H2) ltac:(lia))).
      rewrite (bind_Ret _ _ _ _ _
                 (read_reg (after_read (after_read w)) (0x07 + 4 * 2) eq_refl
                    (can_transfer_le 2 1 _ ltac:(lia) H3) ltac:(lia))).
      rewrite (bind_Raise _ _ _ _ _
                 (read_out_of_range (after_read (after_read (after_read w)))
                    (0x0a + 4 * 2) eq_refl H4 ltac:(lia))).
      eexists. split; [reflexivity |]. repeat split.
    + rewrite (bind_Raise _ _ _ _ _
                 (read_out_of_range w (0x09 + 4 * a) Hfree
                    (can_transfer_le 4 1 w ltac:(lia) Hok) ltac:(lia))).
      eexists. split; [reflexivity |]. repeat split.
  - intros. unfold setAlarmTime_frame, Py.truthy.
    destruct (Z.eqb_spec a 0) as [E | _]; [lia | reflexivity].
Qed.

Lemma alarm_slot_beyond_one_witness :
  exists w', getAlarmTime 2 (bench true 0x40) = Raise IndexError w' /\
             released w'.
Proof.
  assert (Hw : ready (bench true 0x40)) by (apply bench_ready; lia).
  destruct (alarm_slot_beyond_one (bench true 0x40) 2 Hw I ltac:(lia))
    as [(w' & E & R & _) _].
  exists w'. split; assumption.
Defined.

Lemma read_held w loc : owned w = true -> __read loc w = Spin w.
Proof.
  intros H. unfold __read. unfold bind at 1.
  rewrite (prepare_held w H). reflexivity.
Qed.

(** X10: a transport fault wedges the driver.  When the transfer of a read
    fails, the fault leaves the bus held, and from then on every read and
    every write operation waits in [__lock] for ever. *)
Theorem fault_wedges_driver w loc :
  owned w = false -> faults w = Some O ->
  exists w1,
    __read loc w = Raise TransportFault w1 /\
    (forall loc', __read loc' w1 = Spin w1) /\
    (forall l v, __write l v w1 = Spin w1) /\
    (forall buf, __writeBuf buf w1 = Spin w1).
Proof.
  intros Hfree Hko. eexists. split; [apply read_fault; assumption |].
  set (w1 := set_faults None (set_cs true (set_owned true w))).
  assert (Hheld : owned w1 = true) by reflexivity.
  assert (Hon : __writeOn w1 = Spin w1).
  { unfold __writeOn. unfold bind at 1.
    rewrite (read_held w1 0x0f Hheld). reflexivity. }
  split; [| split].
  - intros loc'. apply read_held, Hheld.
  - intros l v. unfold __write. unfold bind at 1. rewrite Hon. reflexivity.
  - intros buf. unfold __writeBuf. unfold bind at 1. rewrite Hon. reflexivity.
Qed.

Lemma fault_wedges_driver_witness :
  exists w1,
    __read 0x02 (faulty_bench true 0x40 0) = Raise TransportFault w1 /\
    __read 0x02 w1 = Spin w1.
Proof.
  destruct (fault_wedges_driver (faulty_bench true 0x40 0) 0x02 eq_refl eq_refl)
    as (w1 & E & Hr & _).
  exists w1. split; [exact E | apply Hr].
Defined.

End Reads.

(** ** What a write operation changes *)

Section WriteEffect.

Lemma burst_value_nil r old a : burst_value r [] old a = old a.
Proof.
  unfold burst_value. cbn [List.length].
  destruct (Z.leb_spec r a); destruct (Z.ltb_spec a (r + Z.of_nat 0));
    cbn [andb]; first [reflexivity | lia].
Qed.

Lemma burst_value_cons r v rest old a :
  burst_value (r + 1) rest (fun x => if x =? r then v else old x) a =
  burst_value r (v :: rest) old a.
Proof.
  unfold burst_value. cbn [List.length]. rewrite Nat2Z.inj_succ.
  destruct (Z.leb_spec (r + 1) a) as [H1 | H1];
    destruct (Z.ltb_spec a (r + 1 + Z.of_nat (List.length rest))) as [H2 | H2];
    destruct (Z.leb_spec r a) as [H3 | H3];
    destruct (Z.ltb_spec a (r + Z.succ (Z.of_nat (List.length rest))))
      as [H4 | H4];
    cbn [andb]; try lia.
  - replace (Z.to_nat (a - r)) with (S (Z.to_nat (a - (r + 1)))) by lia.
    reflexivity.
  - destruct (Z.eqb_spec a r); [lia | reflexivity].
  - destruct (Z.eqb_spec a r) as [-> | Hne].
    + replace (r - r) with 0 by lia. reflexivity.
    + lia.
  - destruct (Z.eqb_spec a r); [lia | reflexivity].
Qed.

(** While write protect is clear, a burst that stays below the control
    register, or starts above the status register, stores its bytes at
    consecutive addresses and nothing else. *)
Lemma burst_unlocked gate data :
  forall r rg,
    Z.testbit (rg 0x0f) 6 = false ->
    r + Z.of_nat (List.length data) <= 0x0f \/ 0x11 <= r ->
    forall a, burst gate r data rg a = burst_value r data rg a.
Proof.
  induction data as [| v rest IH]; intros r rg Hu Hr a; cbn [burst].
  - symmetry. apply burst_value_nil.
  - cbn [List.length] in Hr. rewrite Nat2Z.inj_succ in Hr.
    assert (Hst : forall x, store gate r v rg x = if x =? r then v else rg x)
      by (apply store_unlocked; [exact Hu | lia | lia]).
    rewrite IH.
    + rewrite <- burst_value_cons. unfold burst_value.
      destruct ((r + 1 <=? a) && (a <? r + 1 + Z.of_nat (List.length rest)));
        [reflexivity | apply Hst].
    + rewrite Hst. destruct (Z.eqb_spec 0x0f r); [lia | exact Hu].
    + lia.
Qed.

Lemma relock_restores c :
  0 <= c < 256 -> Z.testbit c 6 = true ->
  Z.lor (Z.lor (Z.land c (-0x41)) (Z.land (Z.land c 0x04) 0x40)) 0x40 = c.
Proof.
  intros Hc H6.
  assert (H : (if Z.testbit c 6
               then Z.lor (Z.lor (Z.land c (-0x41))
                                 (Z.land (Z.land c 0x04) 0x40)) 0x40 =? c
               else true) = true).
  { clear H6. revert c Hc.
    apply (forall_bytes
             (fun k => if Z.testbit k 6
                       then Z.lor (Z.lor (Z.land k (-0x41))
                                         (Z.land (Z.land k 0x04) 0x40)) 0x40
                            =? k
                       else true)).
    vm_compute. reflexivity. }
  rewrite H6 in H. apply Z.eqb_eq. exact H.
Qed.

Lemma lock_byte_stored v :
  0 <= v < 256 ->
  Z.lor (Z.land v (-0x41)) (Z.land (Z.lor v 0x40) 0x40) = Z.lor v 0x40.
Proof.
  intros Hv. apply Z.eqb_eq. revert v Hv.
  apply (forall_bytes
           (fun k => Z.lor (Z.land k (-0x41)) (Z.land (Z.lor k 0x40) 0x40)
                     =? Z.lor k 0x40)).
  vm_compute. reflexivity.
Qed.

(** The registers after a whole write operation whose data frame is a burst
    that does not reach the control register. *)
Lemma write_operation_regs w addr data :
  ready w -> Z.testbit addr 7 = true ->
  Z.land addr 0x7f + Z.of_nat (List.length data) <= 0x0f \/
    0x11 <= Z.land addr 0x7f ->
  forall a,
    regs (locked_by (after_frame (addr :: data) (unlocked_by w))) a =
      if a =? 0x0f then control_after_write (wp_gate w) (regs w 0x0f)
      else burst_value (Z.land addr 0x7f) data (regs w) a.
Proof.
  intros Hw Hbit Hr a.
  pose proof (unlocked_control w Hw) as Hu.
  pose proof (ready_regs w Hw 0x0f) as Hc.
  set (U := regs (unlocked_by w)) in *.
  set (W2 := regs (after_frame (addr :: data) (unlocked_by w))).
  assert (HW2 : forall x, W2 x = burst_value (Z.land addr 0x7f) data U x).
  { intros x. unfold W2.
    change (regs (after_frame (addr :: data) (unlocked_by w)))
      with (dev_write (wp_gate w) (addr :: data) U).
    cbn [dev_write]. rewrite Hbit. apply burst_unlocked; assumption. }
  assert (HU : forall x, x <> 0x0f -> U x = regs w x).
  { intros x Hx. unfold U.
    change (regs (unlocked_by w))
      with (dev_write (wp_gate w) [0x8f; Z.land (regs w 0x0f) 0x04] (regs w)).
    apply control_frame_elsewhere, Hx. }
  assert (H15 : W2 0x0f = U 0x0f).
  { rewrite HW2. unfold burst_value.
    destruct (Z.leb_spec (Z.land addr 0x7f) 0x0f);
      destruct (Z.ltb_spec 0x0f
                  (Z.land addr 0x7f + Z.of_nat (List.length data)));
      cbn [andb]; first [reflexivity | lia]. }
  change (regs (locked_by (after_frame (addr :: data) (unlocked_by w))) a)
    with (dev_write (wp_gate w) [0x8f; Z.lor (W2 0x0f) 0x40] W2 a).
  destruct (Z.eqb_spec a 0x0f) as [-> | Ha].
  - rewrite control_written_unlocked by (rewrite H15; exact Hu).
    rewrite H15. unfold U.
    change (regs (unlocked_by w) 0x0f)
      with (dev_write (wp_gate w) [0x8f; Z.land (regs w 0x0f) 0x04]
              (regs w) 0x0f).
    rewrite control_after_frame. unfold control_after_write.
    destruct (wp_gate w); cbn [andb]; [| reflexivity].
    destruct (Z.testbit (regs w 0x0f) 6) eqn:E6; [| reflexivity].
    apply relock_restores; assumption.
  - rewrite control_frame_elsewhere by exact Ha.
    rewrite HW2. unfold burst_value.
    destruct ((Z.land addr 0x7f <=? a) &&
              (a <? Z.land addr 0x7f + Z.of_nat (List.length data)));
      [reflexivity | apply HU, Ha].
Qed.

(** The registers after a write operation on the control register itself. *)
Lemma control_write_regs w v :
  ready w -> 0 <= v < 256 ->
  forall a,
    regs (locked_by (after_frame [0x8f; v] (unlocked_by w))) a =
      if a =? 0x0f then Z.lor v 0x40 else regs w a.
Proof.
  intros Hw Hv a.
  pose proof (unlocked_control w Hw) as Hu.
  set (U := regs (unlocked_by w)) in *.
  set (W2 := regs (after_frame [0x8f; v] (unlocked_by w))).
  assert (HW2 : W2 = dev_write (wp_gate w) [0x8f; v] U) by reflexivity.
  assert (H15 : W2 0x0f = v)
    by (rewrite HW2; apply control_written_unlocked, Hu).
  change (regs (locked_by (after_frame [0x8f; v] (unlocked_by w))) a)
    with (dev_write (wp_gate w) [0x8f; Z.lor (W2 0x0f) 0x40] W2 a).
  destruct (Z.eqb_spec a 0x0f) as [-> | Ha].
  - rewrite control_after_frame, H15.
    destruct (wp_gate w && Z.testbit v 6); [| reflexivity].
    apply lock_byte_stored, Hv.
  - rewrite control_frame_elsewhere by exact Ha.
    rewrite HW2, control_frame_elsewhere by exact Ha.
    unfold U.
    change (regs (unlocked_by w))
      with (dev_write (wp_gate w) [0x8f; Z.land (regs w 0x0f) 0x04] (regs w)).
    apply control_frame_elsewhere, Ha.
Qed.

(** X11: a burst write changes what it addresses and nothing else.  When
    [__writeBuf] sends a frame whose payload ends below the control
    register, afterwards the addressed registers hold the payload, the
    control register holds [control_after_write] of its old value
    (unchanged on a gating device that was Locked, otherwise bit 2 and write
    protect only), and every other register is as before. *)
Theorem writeBuf_changes_addressed_only w addr data :
  ready w -> can_transfer 5 w ->
  forallb Py.is_byte (addr :: data) = true -> Z.testbit addr 7 = true ->
  Z.land addr 0x7f + Z.of_nat (List.length data) <= 0x0f ->
  exists w',
    __writeBuf (addr :: data) w = Ret tt w' /\
    forall a,
      regs w' a =
        if a =? 0x0f then control_after_write (wp_gate w) (regs w 0x0f)
        else burst_value (Z.land addr 0x7f) data (regs w) a.
Proof.
  intros Hw Hok Hb Hbit Hr. eexists. split.
  - apply writeBuf_ok; assumption.
  - apply write_operation_regs; [assumption | assumption | left; exact Hr].
Qed.

Lemma writeBuf_changes_addressed_only_witness :
  exists w',
    __writeBuf [0x83; 0x05; 0x29] (bench false 0x43) = Ret tt w' /\
    regs w' 0x03 = 0x05 /\ regs w' 0x04 = 0x29 /\ regs w' 0x05 = 0x00 /\
    regs w' 0x0f = 0x40.
Proof.
  assert (Hw : ready (bench false 0x43)) by (apply bench_ready; lia).
  destruct (writeBuf_changes_addressed_only (bench false 0x43) 0x83
              [0x05; 0x29] Hw I eq_refl eq_refl ltac:(cbn; lia))
    as (w' & E & H).
  exists w'. split; [exact E |].
  rewrite !H. repeat split.
Defined.

End WriteEffect.

(** ** Clock and calendar through the device *)

Section Calendar.

Lemma clock_roundtrip_witness :
  exists w1 w2,
    setTime 11 59 58 1 1 (bench true 0x40) = Ret tt w1 /\
    getTime w1 = Ret (11, 59, 58, 1, 1) w2.
Proof.
  assert (Hw : ready (bench true 0x40)) by (apply bench_ready; lia).
  apply (clock_roundtrip (bench true 0x40) 11 59 58 1 1 Hw I); lia.
Defined.









End Calendar.

(** ** Read-modify-write operations *)

Section ReadModifyWrite.

Lemma alarm_mask_bytes c :
  0 <= c < 256 ->
  0 <= Z.lor c 0x01 < 256 /\ 0 <= Z.lor c 0x02 < 256 /\
  0 <= Z.land c (-0x02) < 256 /\ 0 <= Z.land c (-0x03) < 256.
Proof.
  intros Hc. split; [| split; [| split]]; apply is_byte_true; revert c Hc.
  - apply (forall_bytes (fun k => Py.is_byte (Z.lor k 0x01))).
    vm_compute. reflexivity.
  - apply (forall_bytes (fun k => Py.is_byte (Z.lor k 0x02))).
    vm_compute. reflexivity.
  - apply (forall_bytes (fun k => Py.is_byte (Z.land k (-0x02)))).
    vm_compute. reflexivity.
  - apply (forall_bytes (fun k => Py.is_byte (Z.land k (-0x03)))).
    vm_compute. reflexivity.
Qed.

(** A register read followed by a write operation on the control register. *)
Lemma control_update w (f : Z -> Z) :
  ready w -> can_transfer 6 w -> 0 <= f (regs w 0x0f) < 256 ->
  exists w',
    (c <- __read 0x0f ;; c <- as_int c ;; __write 0x8f (f c)) w = Ret tt w' /\
    forall r, regs w' r =
              if r =? 0x0f then Z.lor (f (regs w 0x0f)) 0x40 else regs w r.
Proof.
  intros Hw Hok Hf.
  pose proof (after_read_ready w Hw) as Hw1.
  pose proof (after_read_can_transfer 5 w Hok) as Hok1.
  eexists. split.
  - rewrite (bind_Ret _ _ _ _ _
               (read_reg w 0x0f (ready_free w Hw)
                  (can_transfer_le 6 1 w ltac:(lia) Hok) ltac:(lia))).
    unfold as_int at 1, ret at 1, bind at 1.
    apply write_ok; [exact Hw1 | exact Hok1 | lia | exact Hf].
  - intros r. apply (control_write_regs (after_read w) _ Hw1 Hf).
Qed.

(** X15: the alarm-interrupt switches change one bit.  [enableAlarmInt a]
    leaves the control register as its old value with bit 0 (slot 0) or
    bit 1 (any other slot) set, [disableAlarmInt a] as its old value with
    that bit cleared, in both cases with write protect set; no other
    register changes. *)
Theorem alarm_interrupt_switch w a :
  ready w -> can_transfer 6 w ->
  (exists w',
     enableAlarmInt a w = Ret tt w' /\
     forall r, regs w' r =
               if r =? 0x0f
               then Z.lor (Z.lor (regs w 0x0f) (if a =? 0 then 0x01 else 0x02))
                          0x40
               else regs w r) /\
  (exists w',
     disableAlarmInt a w = Ret tt w' /\
     forall r, regs w' r =
               if r =? 0x0f
               then Z.lor (Z.land (regs w 0x0f)
                                  (if a =? 0 then -0x02 else -0x03)) 0x40
               else regs w r).
Proof.
  intros Hw Hok.
  destruct (alarm_mask_bytes _ (ready_regs w Hw 0x0f)) as (B1 & B2 & B3 & B4).
  split.
  - unfold enableAlarmInt, Py.truthy. rewrite negb_involutive. cbv zeta.
    apply (control_update w
             (fun c => Z.lor c (if a =? 0 then 0x01 else 0x02)) Hw Hok).
    destruct (a =? 0); assumption.
  - unfold disableAlarmInt, Py.truthy. rewrite negb_involutive. cbv zeta.
    apply (control_update w
             (fun c => Z.land c (if a =? 0 then -0x02 else -0x03)) Hw Hok).
    destruct (a =? 0); assumption.
Qed.

Lemma alarm_interrupt_switch_witness :
  (exists w', enableAlarmInt 1 (bench true 0x44) = Ret tt w' /\
              regs w' 0x0f = 0x46) /\
  (exists w', disableAlarmInt 1 (bench true 0x46) = Ret tt w' /\
              regs w' 0x0f = 0x44).
Proof.
  assert (Hw : ready (bench true 0x44)) by (apply bench_ready; lia).
  assert (Hw' : ready (bench true 0x46)) by (apply bench_ready; lia).
  destruct (alarm_interrupt_switch (bench true 0x44) 1 Hw I)
    as [(w1 & E1 & H1) _].
  destruct (alarm_interrupt_switch (bench true 0x46) 1 Hw' I)
    as [_ (w2 & E2 & H2)].
  split; [exists w1 | exists w2]; (split; [assumption |]).
  - rewrite H1. reflexivity.
  - rewrite H2. reflexivity.
Defined.

Lemma charger_switch_bytes c :
  0 <= c < 256 ->
  Z.lor (Z.lor (Z.land (Z.land c (-0x41)) (-0x11)) 0x80) 0x20 =
    0xa0 + Z.land c 0x0f /\
  Z.lor (Z.lor (Z.land (Z.land c (-0x81)) (-0x21)) 0x40) 0x10 =
    0x50 + Z.land c 0x0f /\
  0 <= 0xa0 + Z.land c 0x0f < 256 /\ 0 <= 0x50 + Z.land c 0x0f < 256.
Proof.
  intros Hc.
  assert (H : ((Z.lor (Z.lor (Z.land (Z.land c (-0x41)) (-0x11)) 0x80) 0x20
                  =? 0xa0 + Z.land c 0x0f) &&
               (Z.lor (Z.lor (Z.land (Z.land c (-0x81)) (-0x21)) 0x40) 0x10
                  =? 0x50 + Z.land c 0x0f) &&
               Py.is_byte (0xa0 + Z.land c 0x0f) &&
               Py.is_byte (0x50 + Z.land c 0x0f)) = true).
  { revert c Hc.
    apply (forall_bytes
             (fun k =>
                (Z.lor (Z.lor (Z.land (Z.land k (-0x41)) (-0x11)) 0x80) 0x20
                   =? 0xa0 + Z.land k 0x0f) &&
                (Z.lor (Z.lor (Z.land (Z.land k (-0x81)) (-0x21)) 0x40) 0x10
                   =? 0x50 + Z.land k 0x0f) &&
                Py.is_byte (0xa0 + Z.land k 0x0f) &&
                Py.is_byte (0x50 + Z.land k 0x0f))).
    vm_compute. reflexivity. }
  rewrite !andb_true_iff, !Z.eqb_eq, !is_byte_true in H. tauto.
Qed.

(** A register read followed by a write operation on the charger register. *)
Lemma charger_update w (f : Z -> Z) :
  ready w -> can_transfer 6 w -> 0 <= f (regs w 0x11) < 256 ->
  exists w',
    (c <- __read 0x11 ;; c <- as_int c ;; __write 0x91 (f c)) w = Ret tt w' /\
    ready w' /\ can_transfer 0 w' /\
    forall r, regs w' r =
              if r =? 0x0f then control_after_write (wp_gate w) (regs w 0x0f)
              else if r =? 0x11 then f (regs w 0x11)
              else regs w r.
Proof.
  intros Hw Hok Hf.
  pose proof (after_read_ready w Hw) as Hw1.
  pose proof (after_read_can_transfer 5 w Hok) as Hok1.
  assert (Hb : forallb Py.is_byte [0x91; f (regs w 0x11)] = true).
  { cbn [forallb]. apply is_byte_true in Hf. rewrite Hf. reflexivity. }
  eexists. split; [| split; [| split]].
  - rewrite (bind_Ret _ _ _ _ _
               (read_reg w 0x11 (ready_free w Hw)
                  (can_transfer_le 6 1 w ltac:(lia) Hok) ltac:(lia))).
    unfold as_int at 1, ret at 1, bind at 1.
    apply write_ok; [exact Hw1 | exact Hok1 | lia | exact Hf].
  - apply write_operation_ready; assumption.
  - apply (write_operation_can_transfer 0), Hok1.
  - intros r.
    assert (Hr : Z.land 0x91 0x7f +
                   Z.of_nat (List.length [f (regs w 0x11)]) <= 0x0f \/
                 0x11 <= Z.land 0x91 0x7f) by (right; cbn; lia).
    rewrite (write_operation_regs (after_read w) 0x91 [f (regs w 0x11)] Hw1
               eq_refl Hr r).
    destruct (r =? 0x0f); [reflexivity |].
    unfold burst_value. change (Z.land 0x91 0x7f) with 0x11.
    cbn [List.length]. change (Z.of_nat 1) with 1.
    destruct (Z.eqb_spec r 0x11) as [-> | Hne]; [reflexivity |].
    destruct (Z.leb_spec 0x11 r); destruct (Z.ltb_spec r (0x11 + 1));
      cbn [andb]; first [reflexivity | lia].
Qed.

(** X16: the charger switches rewrite the upper nibble only.
    [enableCharger] leaves the charger register as 0xA0 plus its old low
    nibble, [disableCharger] as 0x50 plus its old low nibble: the diode and
    resistor selection in bits 0-3 is kept, and no register other than the
    charger and control registers changes. *)
Theorem charger_switch w :
  ready w -> can_transfer 6 w ->
  (exists w',
     enableCharger w = Ret tt w' /\
     regs w' 0x11 = 0xa0 + Z.land (regs w 0x11) 0x0f /\
     forall r, r <> 0x0f -> r <> 0x11 -> regs w' r = regs w r) /\
  (exists w',
     disableCharger w = Ret tt w' /\
     regs w' 0x11 = 0x50 + Z.land (regs w 0x11) 0x0f /\
     forall r, r <> 0x0f -> r <> 0x11 -> regs w' r = regs w r).
Proof.
  intros Hw Hok.
  destruct (charger_switch_bytes _ (ready_regs w Hw 0x11))
    as (E1 & E2 & B1 & B2).
  split.
  - destruct (charger_update w
                (fun c => Z.lor (Z.lor (Z.land (Z.land c (-0x41)) (-0x11))
                                       0x80) 0x20) Hw Hok)
      as (w' & E & _ & _ & H); [rewrite E1; exact B1 |].
    exists w'. split; [exact E | split].
    + rewrite H. cbn. exact E1.
    + intros r H15 H17. rewrite H.
      destruct (Z.eqb_spec r 0x0f); [contradiction |].
      destruct (Z.eqb_spec r 0x11); [contradiction | reflexivity].
  - destruct (charger_update w
                (fun c => Z.lor (Z.lor (Z.land (Z.land c (-0x81)) (-0x21))
                                       0x40) 0x10) Hw Hok)
      as (w' & E & _ & _ & H); [rewrite E2; exact B2 |].
    exists w'. split; [exact E | split].
    + rewrite H. cbn. exact E2.
    + intros r H15 H17. rewrite H.
      destruct (Z.eqb_spec r 0x0f); [contradiction |].
      destruct (Z.eqb_spec r 0x11); [contradiction | reflexivity].
Qed.

Lemma charger_switch_witness :
  (exists w', enableCharger (bench true 0x40) = Ret tt w' /\
              regs w' 0x11 = 0xa0) /\
  (exists w', disableCharger (bench true 0x40) = Ret tt w' /\
              regs w' 0x11 = 0x50).
Proof.
  assert (Hw : ready (bench true 0x40)) by (apply bench_ready; lia).
  destruct (charger_switch (bench true 0x40) Hw I)
    as [(w1 & E1 & H1 & _) (w2 & E2 & H2 & _)].
  split; [exists w1 | exists w2]; split; assumption.
Defined.

End ReadModifyWrite.

(** ** Charger selection and alarm registers *)

Section Selection.

Lemma charger_selection_bytes c :
  0 <= c < 256 ->
  forall d r,
    let d1 := if d =? 0 then Z.lor (Z.land c (-0x09)) 0x04
              else Z.lor (Z.land c (-0x05)) 0x08 in
    (if r =? 0 then Z.lor (Z.land d1 (-0x03)) 0x01
     else if r =? 1 then Z.lor (Z.land d1 (-0x02)) 0x02
     else Z.lor (Z.lor d1 0x01) 0x02) =
    Z.land c 0xf0 + (if d =? 0 then 0x04 else 0x08) +
      (if r =? 0 then 0x01 else if r =? 1 then 0x02 else 0x03).
Proof.
  intros Hc d r. cbv zeta.
  assert (H : forall (f : Z -> Z) (v : Z),
            forallb (fun k => f k =? Z.land k 0xf0 + v)
                    (map (fun k => 0 + Z.of_nat k) (seq 0 256)) = true ->
            f c = Z.land c 0xf0 + v).
  { intros f v Hall. apply Z.eqb_eq.
    exact (forall_bytes (fun k => f k =? Z.land k 0xf0 + v) Hall c Hc). }
  destruct (d =? 0); destruct (r =? 0); try destruct (r =? 1);
    rewrite <- Z.add_assoc;
    match goal with
    | |- ?lhs = Z.land c 0xf0 + ?v =>
        let f := eval pattern c in lhs in
        match f with ?g c => apply (H g v) end
    end;
    vm_compute; reflexivity.
Qed.

(** X17: [setChargerState] selects by overwriting two bit pairs.  Whatever
    the charger register held, afterwards its bits 2-3 are 01 for a zero
    diode selector and 10 for any other, its bits 0-1 are 01, 10 or 11 for
    a resistor selector 0, 1 or anything else, and its upper nibble is
    unchanged; no register other than charger and control changes. *)
Theorem setChargerState_selection w d r :
  ready w -> can_transfer 12 w ->
  exists w',
    setChargerState d r w = Ret tt w' /\
    regs w' 0x11 =
      Z.land (regs w 0x11) 0xf0 + (if d =? 0 then 0x04 else 0x08) +
        (if r =? 0 then 0x01 else if r =? 1 then 0x02 else 0x03) /\
    forall a, a <> 0x0f -> a <> 0x11 -> regs w' a = regs w a.
Proof.
  intros Hw Hok.
  pose proof (ready_regs w Hw 0x11) as Hc.
  set (fd := fun c => if d =? 0 then Z.lor (Z.land c (-0x09)) 0x04
                      else Z.lor (Z.land c (-0x05)) 0x08).
  set (fr := fun c => if r =? 0 then Z.lor (Z.land c (-0x03)) 0x01
                      else if r =? 1 then Z.lor (Z.land c (-0x02)) 0x02
                      else Z.lor (Z.lor c 0x01) 0x02).
  assert (Hfd : forall c, 0 <= c < 256 -> 0 <= fd c < 256).
  { intros c Hb. unfold fd. destruct (charger_bytes c Hb) as (H1 & H2 & _).
    destruct (d =? 0); apply is_byte_true; assumption. }
  assert (Hfr : forall c, 0 <= c < 256 -> 0 <= fr c < 256).
  { intros c Hb. unfold fr.
    destruct (charger_bytes c Hb) as (_ & _ & H3 & H4 & H5).
    destruct (r =? 0); [apply is_byte_true; assumption |].
    destruct (r =? 1); apply is_byte_true; assumption. }
  destruct (charger_update w fd Hw (can_transfer_le 12 6 w ltac:(lia) Hok)
              (Hfd _ Hc)) as (w2 & E2 & Hw2 & _ & H2).
  assert (Hok2 : can_transfer 6 w2).
  { revert E2.
    rewrite (bind_Ret _ _ _ _ _
               (read_reg w 0x11 (ready_free w Hw)
                  (can_transfer_le 12 1 w ltac:(lia) Hok) ltac:(lia))).
    unfold as_int at 1, ret at 1, bind at 1.
    rewrite (write_ok (after_read w) 0x91 (fd (regs w 0x11))
               (after_read_ready w Hw)
               (can_transfer_le 11 5 _ ltac:(lia)
                  (after_read_can_transfer 11 w Hok))
               ltac:(lia) (Hfd _ Hc)).
    intros E. injection E as <-.
    apply (write_operation_can_transfer 6).
    exact (after_read_can_transfer 11 w Hok). }
  assert (H17 : regs w2 0x11 = fd (regs w 0x11)) by (rewrite H2; reflexivity).
  destruct (charger_update w2 fr Hw2 Hok2 (Hfr _ (ready_regs w2 Hw2 0x11)))
    as (w4 & E4 & _ & _ & H4).
  exists w4. split; [| split].
  - unfold setChargerState.
    assert (E1 : (if negb (Py.truthy d)
                  then (c <- __read 0x11 ;; c <- as_int c ;;
                        ret (Z.lor (Z.land c (-0x09)) 0x04))
                  else (c <- __read 0x11 ;; c <- as_int c ;;
                        ret (Z.lor (Z.land c (-0x05)) 0x08))) w =
                 Ret (fd (regs w 0x11)) (after_read w)).
    { unfold fd, Py.truthy. rewrite negb_involutive.
      destruct (d =? 0);
        apply read_then;
        first [ exact (ready_free w Hw)
              | exact (can_transfer_le 12 1 w ltac:(lia) Hok) | lia ]. }
    rewrite (bind_Ret _ _ _ _ _ E1).
    revert E2.
    rewrite (bind_Ret _ _ _ _ _
               (read_reg w 0x11 (ready_free w Hw)
                  (can_transfer_le 12 1 w ltac:(lia) Hok) ltac:(lia))).
    unfold as_int at 1, ret at 1, bind at 1. intros E2.
    rewrite (bind_Ret _ _ _ _ _ E2).
    assert (E3 : (if negb (Py.truthy r)
                  then (c <- __read 0x11 ;; c <- as_int c ;;
                        ret (Z.lor (Z.land c (-0x03)) 0x01))
                  else if r =? 1
                  then (c <- __read 0x11 ;; c <- as_int c ;;
                        ret (Z.lor (Z.land c (-0x02)) 0x02))
                  else (c <- __read 0x11 ;; c <- as_int c ;;
                        ret (Z.lor (Z.lor c 0x01) 0x02))) w2 =
                 Ret (fr (regs w2 0x11)) (after_read w2)).
    { unfold fr, Py.truthy. rewrite negb_involutive.
      pose proof (can_transfer_le 6 1 w2 ltac:(lia) Hok2) as Hk.
      pose proof (ready_free w2 Hw2) as Hf2.
      destruct (r =? 0); [apply read_then; [assumption | assumption | lia] |].
      destruct (r =? 1); apply read_then; first [assumption | lia]. }
    rewrite (bind_Ret _ _ _ _ _ E3).
    revert E4.
    rewrite (bind_Ret _ _ _ _ _
               (read_reg w2 0x11 (ready_free w2 Hw2)
                  (can_transfer_le 6 1 w2 ltac:(lia) Hok2) ltac:(lia))).
    unfold as_int at 1, ret at 1, bind at 1. intros E4. exact E4.
  - rewrite H4. change (0x11 =? 0x0f) with false.
    change (0x11 =? 0x11) with true. cbv iota.
    rewrite H17. unfold fr, fd.
    apply (charger_selection_bytes _ Hc d r).
  - intros a H15 H11. rewrite H4.
    destruct (Z.eqb_spec a 0x0f); [contradiction |].
    destruct (Z.eqb_spec a 0x11); [contradiction |].
    rewrite H2.
    destruct (Z.eqb_spec a 0x0f); [contradiction |].
    destruct (Z.eqb_spec a 0x11); [contradiction | reflexivity].
Qed.

Lemma setChargerState_selection_witness :
  exists w', setChargerState 1 5 (bench true 0x40) = Ret tt w' /\
             regs w' 0x11 = 0x0b.
Proof.
  assert (Hw : ready (bench true 0x40)) by (apply bench_ready; lia).
  destruct (setChargerState_selection (bench true 0x40) 1 5 Hw I)
    as (w' & E & H & _).
  exists w'. split; [exact E | exact H].
Defined.

End Selection.

Section AlarmRegisters.

Lemma getAlarmTime_ok w a :
  owned w = false -> can_transfer 4 w -> a = 0 \/ a = 1 ->
  getAlarmTime a w =
    Ret (getAlarmTime_result (regs w (0x09 + 4 * a)) (regs w (0x08 + 4 * a))
           (regs w (0x07 + 4 * a)) (regs w (0x0a + 4 * a)))
        (after_read (after_read (after_read (after_read w)))).
Proof.
  intros Hfree Hok Ha.
  pose proof (after_read_can_transfer 3 w Hok) as H2.
  pose proof (after_read_can_transfer 2 _ H2) as H3.
  pose proof (after_read_can_transfer 1 _ H3) as H4.
  unfold getAlarmTime.
  rewrite (bind_Ret _ _ _ _ _
             (read_reg w (0x09 + 4 * a) Hfree
                (can_transfer_le 4 1 w ltac:(lia) Hok) ltac:(lia))).
  rewrite (bind_Ret _ _ _ _ _
             (read_reg (after_read w) (0x08 + 4 * a) eq_refl
                (can_transfer_le 3 1 _ ltac:(lia) H2) ltac:(lia))).
  rewrite (bind_Ret _ _ _ _ _
             (read_reg (after_read (after_read w)) (0x07 + 4 * a) eq_refl
                (can_transfer_le 2 1 _ ltac:(lia) H3) ltac:(lia))).
  rewrite (bind_Ret _ _ _ _ _
             (read_reg (after_read (after_read (after_read w))) (0x0a + 4 * a)
                eq_refl H4 ltac:(lia))).
  reflexivity.
Qed.

Lemma alarm_field_byte v f :
  0 <= v <= 79 -> 0 <= f <= 1 ->
  Py.is_byte (Z.lor (dectobcd v) (0x80 * f)) = true.
Proof.
  intros Hv Hf. assert (E : f = 0 \/ f = 1) by lia.
  destruct E as [-> | ->].
  - apply (forall_range
             (fun k => Py.is_byte (Z.lor (dectobcd k) (0x80 * 0))) 0 80);
      [vm_compute; reflexivity | lia].
  - apply (forall_range
             (fun k => Py.is_byte (Z.lor (dectobcd k) (0x80 * 1))) 0 80);
      [vm_compute; reflexivity | lia].
Qed.

Lemma hour24_mode_bit_clear h :
  0 <= h <= 23 -> Z.land (dectobcd h) (-0x41) = dectobcd h.
Proof.
  intros Hh. apply Z.eqb_eq.
  apply (forall_range
           (fun k => Z.land (dectobcd k) (-0x41) =? dectobcd k) 0 24);
    [vm_compute; reflexivity | lia].
Qed.

(** X18: an alarm set in 24-hour mode is read back field by field.  For
    slot 0 or 1, [setAlarmTime] stores seconds, minutes, hours and weekday
    with their match flags in the four registers of that slot and leaves
    the registers of the other slot as they were; [getAlarmTime] of the same
    slot then returns the four match flags as given, and for each field the
    binary text of its BCD code. *)
Theorem alarm_set_then_get w a h m s wd fh fm fs fw :
  ready w -> can_transfer 9 w -> a = 0 \/ a = 1 ->
  0 <= h <= 23 -> 0 <= m <= 59 -> 0 <= s <= 59 -> 1 <= wd <= 7 ->
  0 <= fh <= 1 -> 0 <= fm <= 1 -> 0 <= fs <= 1 -> 0 <= fw <= 1 ->
  exists w1 w2,
    setAlarmTime a h m s wd fh fm fs fw 0 0 w = Ret tt w1 /\
    getAlarmTime a w1 =
      Ret (Py.bin (dectobcd h), Py.bin (dectobcd m), Py.bin (dectobcd s),
           Py.bin (dectobcd wd), fh, fm, fs, fw) w2 /\
    (forall r, 0x07 + 4 * (1 - a) <= r <= 0x0a + 4 * (1 - a) ->
               regs w1 r = regs w r).
Proof.
  intros Hw Hok Ha Hh Hm Hs Hwd Hfh Hfm Hfs Hfw.
  set (add := if negb (Py.truthy a) then 0x87 else 0x8B).
  set (data := [Z.lor (dectobcd s) (0x80 * fs); Z.lor (dectobcd m) (0x80 * fm);
                Z.lor (dectobcd h) (0x80 * fh);
                Z.lor (dectobcd wd) (0x80 * fw)]).
  assert (Hframe : setAlarmTime_frame a h m s wd fh fm fs fw 0 0 = add :: data)
    by reflexivity.
  assert (Hadd : add = 0x87 + 4 * a)
    by (unfold add; destruct Ha as [-> | ->]; reflexivity).
  assert (Hb : forallb Py.is_byte (add :: data) = true).
  { unfold data. cbn [forallb].
    rewrite !alarm_field_byte by lia. rewrite !andb_true_r.
    rewrite Hadd. destruct Ha as [-> | ->]; reflexivity. }
  assert (Hbit : Z.testbit add 7 = true)
    by (rewrite Hadd; destruct Ha as [-> | ->]; reflexivity).
  assert (Hbase : Z.land add 0x7f = 0x07 + 4 * a)
    by (rewrite Hadd; destruct Ha as [-> | ->]; reflexivity).
  set (w1 := locked_by (after_frame (add :: data) (unlocked_by w))).
  assert (Hw1 : ready w1) by (apply write_operation_ready; assumption).
  assert (Hok1 : can_transfer 4 w1)
    by (apply (write_operation_can_transfer 4), Hok).
  assert (Hregs : forall r,
            regs w1 r =
              if r =? 0x0f then control_after_write (wp_gate w) (regs w 0x0f)
              else burst_value (0x07 + 4 * a) data (regs w) r).
  { intros r. rewrite <- Hbase.
    apply write_operation_regs; [exact Hw | exact Hbit |].
    left. rewrite Hbase. cbn [List.length data]. lia. }
  exists w1, (after_read (after_read (after_read (after_read w1)))).
  split; [| split].
  - unfold setAlarmTime. rewrite Hframe.
    rewrite (bind_Ret _ _ _ _ _ (bytearray_of_bytes (add :: data) w Hb)).
    apply writeBuf_ok;
      [exact Hw | exact (can_transfer_le 9 5 w ltac:(lia) Hok) | exact Hb].
  - rewrite (getAlarmTime_ok w1 a (ready_free w1 Hw1) Hok1 Ha).
    assert (Rh : regs w1 (0x09 + 4 * a) = Z.lor (dectobcd h) (0x80 * fh))
      by (rewrite Hregs; destruct Ha as [-> | ->]; reflexivity).
    assert (Rm : regs w1 (0x08 + 4 * a) = Z.lor (dectobcd m) (0x80 * fm))
      by (rewrite Hregs; destruct Ha as [-> | ->]; reflexivity).
    assert (Rs : regs w1 (0x07 + 4 * a) = Z.lor (dectobcd s) (0x80 * fs))
      by (rewrite Hregs; destruct Ha as [-> | ->]; reflexivity).
    assert (Rw : regs w1 (0x0a + 4 * a) = Z.lor (dectobcd wd) (0x80 * fw))
      by (rewrite Hregs; destruct Ha as [-> | ->]; reflexivity).
    rewrite Rh, Rm, Rs, Rw. unfold getAlarmTime_result.
    destruct (alarm_match_bit h fh ltac:(lia) Hfh) as [Eh Eh'].
    destruct (alarm_match_bit m fm ltac:(lia) Hfm) as [Em Em'].
    destruct (alarm_match_bit s fs ltac:(lia) Hfs) as [Es Es'].
    destruct (alarm_match_bit wd fw ltac:(lia) Hfw) as [Ew Ew'].
    pose proof (hour24_mode_bit_clear h Hh) as Eh24.
    rewrite Eh, Eh24, Em, Es, Ew, Eh', Em', Es', Ew'. reflexivity.
  - intros r Hr. rewrite Hregs.
    destruct (Z.eqb_spec r 0x0f) as [E | _]; [destruct Ha; lia |].
    unfold burst_value. cbn [List.length data].
    destruct (Z.leb_spec (0x07 + 4 * a) r);
      destruct (Z.ltb_spec r (0x07 + 4 * a + Z.of_nat 4));
      cbn [andb]; first [reflexivity | destruct Ha; lia].
Qed.

Lemma alarm_set_then_get_witness :
  exists w1 w2,
    setAlarmTime 1 7 30 15 3 1 0 1 0 0 0 (bench true 0x40) = Ret tt w1 /\
    getAlarmTime 1 w1 =
      Ret ("0b111"%string, "0b110000"%string, "0b10101"%string,
           "0b11"%string, 1, 0, 1, 0) w2.
Proof.
  assert (Hw : ready (bench true 0x40)) by (apply bench_ready; lia).
  destruct (alarm_set_then_get (bench true 0x40) 1 7 30 15 3 1 0 1 0 Hw I
              ltac:(lia) ltac:(lia) ltac:(lia) ltac:(lia) ltac:(lia)
              ltac:(lia) ltac:(lia) ltac:(lia) ltac:(lia))
    as (w1 & w2 & E1 & E2 & _).
  exists w1, w2. split; [exact E1 | exact E2].
Defined.

End AlarmRegisters.

(** ** Repeating a write, and decoding whatever the registers hold *)

Section Repeats.

Lemma control_after_write_idem gate c :
  0 <= c < 256 ->
  control_after_write gate (control_after_write gate c) =
    control_after_write gate c.
Proof.
  intros Hc. unfold control_after_write.
  assert (Hi : Z.lor (Z.land (Z.lor (Z.land c 0x04) 0x40) 0x04) 0x40 =
               Z.lor (Z.land c 0x04) 0x40).
  { apply Z.eqb_eq. revert c Hc.
    apply (forall_bytes
             (fun k => Z.lor (Z.land (Z.lor (Z.land k 0x04) 0x40) 0x04) 0x40
                       =? Z.lor (Z.land k 0x04) 0x40)).
    vm_compute. reflexivity. }
  assert (H6 : Z.testbit (Z.lor (Z.land c 0x04) 0x40) 6 = true)
    by (rewrite Z.lor_spec; apply orb_true_r).
  destruct gate; cbn [andb].
  - destruct (Z.testbit c 6) eqn:E; [rewrite E; reflexivity |].
    rewrite H6. reflexivity.
  - exact Hi.
Qed.

(** X19: a completed burst write can be repeated.  Sending the same frame
    (payload ending below the control register) through [__writeBuf] a
    second time leaves every device register as the first time left it. *)
Theorem writeBuf_repeat w addr data :
  ready w -> can_transfer 10 w ->
  forallb Py.is_byte (addr :: data) = true -> Z.testbit addr 7 = true ->
  Z.land addr 0x7f + Z.of_nat (List.length data) <= 0x0f ->
  exists w1 w2,
    __writeBuf (addr :: data) w = Ret tt w1 /\
    __writeBuf (addr :: data) w1 = Ret tt w2 /\
    forall a, regs w2 a = regs w1 a.
Proof.
  intros Hw Hok Hb Hbit Hr.
  set (w1 := locked_by (after_frame (addr :: data) (unlocked_by w))).
  assert (Hw1 : ready w1) by (apply write_operation_ready; assumption).
  assert (Hok1 : can_transfer 5 w1)
    by (apply (write_operation_can_transfer 5), Hok).
  exists w1, (locked_by (after_frame (addr :: data) (unlocked_by w1))).
  split; [| split].
  - apply writeBuf_ok;
      [exact Hw | exact (can_transfer_le 10 5 w ltac:(lia) Hok) | exact Hb].
  - apply writeBuf_ok; assumption.
  - intros a.
    rewrite (write_operation_regs w1 addr data Hw1 Hbit (or_introl Hr) a).
    pose proof (write_operation_regs w addr data Hw Hbit (or_introl Hr))
      as H1.
    fold w1 in H1. change (wp_gate w1) with (wp_gate w).
    destruct (Z.eqb_spec a 0x0f) as [-> | Ha].
    + rewrite !H1. cbn [Z.eqb Pos.eqb].
      apply control_after_write_idem, (ready_regs w Hw).
    + rewrite (H1 a). destruct (Z.eqb_spec a 0x0f); [contradiction |].
      unfold burst_value.
      destruct ((Z.land addr 0x7f <=? a) &&
                (a <? Z.land addr 0x7f + Z.of_nat (List.length data)))
        eqn:E; [reflexivity |].
      rewrite (H1 a). destruct (Z.eqb_spec a 0x0f); [contradiction |].
      unfold burst_value. rewrite E. reflexivity.
Qed.

Lemma writeBuf_repeat_witness :
  exists w1 w2,
    __writeBuf [0x80; 0x00; 0x30; 0x14] (bench false 0x03) = Ret tt w1 /\
    __writeBuf [0x80; 0x00; 0x30; 0x14] w1 = Ret tt w2 /\
    regs w2 0x0f = regs w1 0x0f /\ regs w2 0x01 = 0x30.
Proof.
  assert (Hw : ready (bench false 0x03)) by (apply bench_ready; lia).
  destruct (writeBuf_repeat (bench false 0x03) 0x80 [0x00; 0x30; 0x14] Hw I
              eq_refl eq_refl ltac:(cbn; lia))
    as (w1 & w2 & E1 & E2 & H).
  exists w1, w2. split; [exact E1 | split; [exact E2 | split; [apply H |]]].
  rewrite H. vm_compute in E1. injection E1 as <-. reflexivity.
Defined.

Lemma land_one_cases x : Z.land x 1 = 0 \/ Z.land x 1 = 1.
Proof.
  change 1 with (Z.ones 1) at 1 2. rewrite Z.land_ones by lia.
  pose proof (Z.mod_pos_bound x (2 ^ 1) ltac:(lia)).
  change (2 ^ 1) with 2 in *. lia.
Qed.

Lemma bcdtodec_range b : 0 <= bcdtodec b <= 85.
Proof.
  unfold bcdtodec. change 0x07 with (Z.ones 3). change 0x0f with (Z.ones 4).
  rewrite !Z.land_ones by lia.
  pose proof (Z.mod_pos_bound (Z.shiftr b 4) (2 ^ 3) ltac:(lia)).
  pose proof (Z.mod_pos_bound b (2 ^ 4) ltac:(lia)).
  change (2 ^ 3) with 8 in *. change (2 ^ 4) with 16 in *. lia.
Qed.

(** X20: whatever the hour register holds, the triple [getTime] derives
    from it has a mode flag and a PM flag that are 0 or 1, a PM flag of 0
    whenever the mode flag is 0 (24-hour mode), and an hour in 0-85. *)
Theorem getTime_hour_flags b :
  let '(h, mode, pm) := getTime_hour b in
  (mode = 0 \/ mode = 1) /\ (pm = 0 \/ pm = 1) /\
  (mode = 0 -> pm = 0) /\ 0 <= h <= 85.
Proof.
  unfold getTime_hour.
  destruct (negb (Py.truthy (Z.land (Z.shiftr b 6) 1))).
  - split; [left; reflexivity |].
    split; [left; reflexivity |].
    split; [reflexivity | apply bcdtodec_range].
  - split; [right; reflexivity |].
    split; [apply land_one_cases |].
    split; [discriminate | apply bcdtodec_range].
Qed.

Lemma getTime_hour_flags_witness :
  (1 = 0 \/ 1 = 1) /\ (1 = 0 \/ 1 = 1) /\ (1 = 0 -> 1 = 0) /\ 0 <= 11 <= 85.
Proof. exact (getTime_hour_flags 0x71). Defined.

(** X21: decoding then encoding gives a BCD byte back.  For a tens digit
    0-7 and a ones digit 0-9, [dectobcd (bcdtodec b) = b] on the byte
    [b = 16*tens + ones]. *)
Theorem bcd_decode_encode q r :
  0 <= q <= 7 -> 0 <= r <= 9 ->
  dectobcd (bcdtodec (16 * q + r)) = 16 * q + r.
Proof. intros Hq Hr. apply dectobcd_bcdtodec; lia. Qed.

Lemma bcd_decode_encode_witness :
  dectobcd (bcdtodec 0x59) = 0x59.
Proof. apply (bcd_decode_encode 5 9); lia. Defined.

Lemma setTime_hour_reduced h th ap :
  th <> 0 -> 12 < h <= 24 ->
  setTime_hour h th ap = setTime_hour (h - 12) 1 (ap mod 2).
Proof.
  intros Hth Hh. unfold setTime_hour, Py.truthy.
  destruct (Z.eqb_spec th 0) as [E | _]; [contradiction |].
  cbn [negb Z.eqb]. cbv zeta.
  destruct (Z.leb_spec h 12) as [H | _]; [lia |].
  destruct (Z.leb_spec (h - 12) 12) as [_ | H]; [| lia].
  rewrite Z.mod_mod by lia. reflexivity.
Qed.

(** X22: in 12-hour mode [setTime] reduces the hour and the AM/PM value
    itself.  An hour 13-24 is packed as the hour minus 12 and any integer
    AM/PM value as its remainder modulo 2, so [getTime] decodes the packed
    byte to the reduced hour, mode flag 1 and that remainder. *)
Theorem hour12_reduction h th ap :
  th <> 0 -> 12 < h <= 24 ->
  getTime_hour (setTime_hour h th ap) = (h - 12, 1, ap mod 2).
Proof.
  intros Hth Hh. rewrite (setTime_hour_reduced h th ap Hth Hh).
  apply hour12_roundtrip; [lia |].
  pose proof (Z.mod_pos_bound ap 2 ltac:(lia)). lia.
Qed.

Lemma hour12_reduction_witness :
  getTime_hour (setTime_hour 14 1 3) = (2, 1, 1).
Proof. apply (hour12_reduction 14 1 3); lia. Defined.

End Repeats.
